(** * telegram_notifier_bot: topic registry and webhook dispatch

    A shallow embedding of [src/telegram_notifier_bot.py]: the [TopicDatabase]
    class (one SQLite table) and [webhook_handler] (body decoding, JSON
    sniffing, Markdown escaping, one call to the Telegram API). *)

From Stdlib Require Import String Ascii.
From Stdlib Require Import ZArith List Bool Lia.
From Stdlib Require Import Permutation Sorted.
Import ListNotations.
Open Scope Z_scope.

(** ** Python strings and bytes

    A Python [str] is a sequence of code points, a [bytes] object a sequence
    of integers in 0..255. *)

Definition pystr := list Z.
Definition pybytes := list Z.

Definition pystr_eq_dec : forall a b : pystr, {a = b} + {a <> b} :=
  list_eq_dec Z.eq_dec.

Definition pystr_eqb (a b : pystr) : bool :=
  if pystr_eq_dec a b then true else false.

(** Literals: [py "abc"] is the Python string of an ASCII literal; [js] reads
    an apostrophe as a double quote, for JSON texts. *)
Definition py (s : string) : pystr :=
  map (fun a => Z.of_N (N_of_ascii a)) (list_ascii_of_string s).

Definition js (s : string) : pystr :=
  map (fun c => if c =? 39 then 34 else c) (py s).

(** ** TopicDatabase

    The table [topics] is a list of rows in insertion order.  The schema of
    [init_database] declares [topic_name] the primary key, so an [INSERT]
    that would repeat a name raises [sqlite3.IntegrityError]. *)

Module TopicDatabase.

Record row := mk_row {
  topic_name : pystr;
  user_id : Z;
  chat_id : Z;
  created_at : Z
}.

Definition table := list row.

(** [CREATE TABLE IF NOT EXISTS]: a new database file holds no row. *)
Definition init_database : table := [].

Definition has_name (name : pystr) (r : row) : bool :=
  pystr_eqb (topic_name r) name.

Definition owned_by (uid : Z) (name : pystr) (r : row) : bool :=
  (user_id r =? uid) && pystr_eqb (topic_name r) name.

(** The primary-key constraint of the schema. *)
Definition primary_key (db : table) : Prop := NoDup (map topic_name db).

(** [add_topic]: the [INSERT]; [now] is the [CURRENT_TIMESTAMP] the column
    default takes.  [IntegrityError] is caught and answered [False]. *)
Definition add_topic (db : table) (name : pystr) (uid cid now : Z)
  : bool * table :=
  if existsb (has_name name) db
  then (false, db)
  else (true, db ++ [mk_row name uid cid now]).

(** [get_topic]: [SELECT ... WHERE topic_name = ?], [fetchone]. *)
Definition get_topic (db : table) (name : pystr) : option row :=
  find (has_name name) db.

(** [find_topic_by_name]: [SELECT ... WHERE user_id = ? AND topic_name = ?]. *)
Definition find_topic_by_name (db : table) (uid : Z) (name : pystr)
  : option row :=
  find (owned_by uid name) db.

(** [delete_topic]: [DELETE ... WHERE user_id = ? AND topic_name = ?];
    [cursor.rowcount] counts the rows the statement removed. *)
Definition delete_topic (db : table) (uid : Z) (name : pystr)
  : bool * table :=
  let rowcount := Z.of_nat (length (filter (owned_by uid name) db)) in
  (0 <? rowcount, filter (fun r => negb (owned_by uid name r)) db).

(** [ORDER BY created_at DESC]: rows with the later timestamp first. *)
Definition newest_first (rows : table) : Prop :=
  StronglySorted (fun a b => created_at b <= created_at a) rows.

(** What SQLite does for an [ORDER BY]: it returns the selected rows, each
    once, in the order asked for.  How it orders rows with equal timestamps
    is its own business, so the sort is a parameter with that contract. *)
Class OrderBy := {
  order_by_created_at_desc : table -> table;
  order_by_permutation :
    forall rows, Permutation rows (order_by_created_at_desc rows);
  order_by_sorted : forall rows, newest_first (order_by_created_at_desc rows)
}.

(** [get_user_topics]: [SELECT ... WHERE user_id = ? ORDER BY created_at
    DESC], [fetchall]. *)
Definition get_user_topics {sqlite : OrderBy} (db : table) (uid : Z) : table :=
  order_by_created_at_desc (filter (fun r => user_id r =? uid) db).

End TopicDatabase.

(** ** [bytes.decode('utf-8', errors='replace')]

    CPython's decoder: a well-formed sequence gives its code point; an
    ill-formed one gives U+FFFD for its maximal invalid prefix (one byte for
    a bad start byte or a bad second byte, two or three when a later
    continuation byte is bad, all the remaining bytes when the data ends
    inside a sequence), and decoding resumes after it. *)

Definition REPLACEMENT : Z := 65533.

Definition is_continuation (b : Z) : bool := (128 <=? b) && (b <=? 191).

Definition cont_bits (b : Z) : Z := Z.land b 63.

Fixpoint utf8_decode_replace (bs : pybytes) : pystr :=
  match bs with
  | [] => []
  | b1 :: r1 =>
    if b1 <? 128 then b1 :: utf8_decode_replace r1
    else if b1 <? 194 then REPLACEMENT :: utf8_decode_replace r1
    else if b1 <? 224 then
      match r1 with
      | [] => [REPLACEMENT]
      | b2 :: r2 =>
        if is_continuation b2
        then Z.lor (Z.shiftl (Z.land b1 31) 6) (cont_bits b2)
             :: utf8_decode_replace r2
        else REPLACEMENT :: utf8_decode_replace r1
      end
    else if b1 <? 240 then
      match r1 with
      | [] => [REPLACEMENT]
      | b2 :: r2 =>
        if negb (is_continuation b2)
           || (if b2 <? 160 then b1 =? 224 else b1 =? 237)
        then REPLACEMENT :: utf8_decode_replace r1
        else
          match r2 with
          | [] => [REPLACEMENT]
          | b3 :: r3 =>
            if is_continuation b3
            then Z.lor (Z.shiftl (Z.land b1 15) 12)
                   (Z.lor (Z.shiftl (cont_bits b2) 6) (cont_bits b3))
                 :: utf8_decode_replace r3
            else REPLACEMENT :: utf8_decode_replace r2
          end
      end
    else if b1 <? 245 then
      match r1 with
      | [] => [REPLACEMENT]
      | b2 :: r2 =>
        if negb (is_continuation b2)
           || (if b2 <? 144 then b1 =? 240 else b1 =? 244)
        then REPLACEMENT :: utf8_decode_replace r1
        else
          match r2 with
          | [] => [REPLACEMENT]
          | b3 :: r3 =>
            if negb (is_continuation b3)
            then REPLACEMENT :: utf8_decode_replace r2
            else
              match r3 with
              | [] => [REPLACEMENT]
              | b4 :: r4 =>
                if is_continuation b4
                then Z.lor (Z.shiftl (Z.land b1 7) 18)
                       (Z.lor (Z.shiftl (cont_bits b2) 12)
                          (Z.lor (Z.shiftl (cont_bits b3) 6) (cont_bits b4)))
                     :: utf8_decode_replace r4
                else REPLACEMENT :: utf8_decode_replace r3
              end
          end
      end
    else REPLACEMENT :: utf8_decode_replace r1
  end.

(** ** Python numbers: [int] and [float] as text

    [int.__repr__] prints decimal digits.  A [float] is a binary64 value:
    [FFin neg m e] is [(-1)^neg * m * 2^e] with [m < 2^53], [e >= -1074]. *)

Fixpoint uint_chars (u : Decimal.uint) : pystr :=
  match u with
  | Decimal.Nil => []
  | Decimal.D0 u => 48 :: uint_chars u
  | Decimal.D1 u => 49 :: uint_chars u
  | Decimal.D2 u => 50 :: uint_chars u
  | Decimal.D3 u => 51 :: uint_chars u
  | Decimal.D4 u => 52 :: uint_chars u
  | Decimal.D5 u => 53 :: uint_chars u
  | Decimal.D6 u => 54 :: uint_chars u
  | Decimal.D7 u => 55 :: uint_chars u
  | Decimal.D8 u => 56 :: uint_chars u
  | Decimal.D9 u => 57 :: uint_chars u
  end.

(** Decimal digits of a natural number, ["0"] for zero. *)
Definition nat_digits (z : Z) : pystr := uint_chars (N.to_uint (Z.to_N z)).

Definition int_repr (z : Z) : pystr :=
  if z <? 0 then 45 :: nat_digits (- z) else nat_digits z.

(** Value of a run of decimal digits. *)
Definition digits_value (ds : pystr) : Z :=
  fold_left (fun acc d => 10 * acc + (d - 48)) ds 0.

Inductive pyfloat :=
| FNan
| FInf (neg : bool)
| FFin (neg : bool) (m e : Z).

(** Nearest integer to [n / d], ties to even ([d > 0]). *)
Definition round_div (n d : Z) : Z :=
  let q := n / d in
  match (2 * (n mod d)) ?= d with
  | Lt => q
  | Gt => q + 1
  | Eq => if Z.even q then q else q + 1
  end.

(** [num / den] scaled by [2^(-e)], as a fraction. *)
Definition scale2 (num den e : Z) : Z * Z :=
  if 0 <=? e then (num, den * 2 ^ e) else (num * 2 ^ (- e), den).

(** [mant * 10^e10] as a fraction. *)
Definition decimal_fraction (mant e10 : Z) : Z * Z :=
  if 0 <=? e10 then (mant * 10 ^ e10, 1) else (mant, 10 ^ (- e10)).

(** [float(text)] for the decimal [mant * 10^e10], [0 <= mant]: correctly
    rounded, overflowing to infinity and underflowing to zero. *)
Definition float_of_decimal (neg : bool) (mant e10 : Z) : pyfloat :=
  if mant =? 0 then FFin neg 0 0 else
  let '(num, den) := decimal_fraction mant e10 in
  let l0 := Z.log2 num - Z.log2 den in
  let '(n0, d0) := scale2 num den l0 in
  let l := if n0 <? d0 then l0 - 1 else l0 in
  let e := Z.max (l - 52) (-1074) in
  let '(n1, d1) := scale2 num den e in
  let q := round_div n1 d1 in
  let '(m, e) := if q =? 2 ^ 53 then (2 ^ 52, e + 1) else (q, e) in
  if m =? 0 then FFin neg 0 0
  else if 971 <? e then FInf neg
  else FFin neg m e.

(** Does the positive fraction [num / den] reach [10^p]? *)
Definition reaches_pow10 (num den p : Z) : bool :=
  if 0 <=? p then den * 10 ^ p <=? num else den <=? num * 10 ^ (- p).

(** The decimal point [p] of a positive fraction: [10^(p-1) <= x < 10^p]. *)
Fixpoint decimal_point (fuel : nat) (num den p : Z) : Z :=
  match fuel with
  | O => p
  | S fuel =>
    if negb (reaches_pow10 num den (p - 1))
    then decimal_point fuel num den (p - 1)
    else if reaches_pow10 num den p
    then decimal_point fuel num den (p + 1)
    else p
  end.

Fixpoint strip_zeros (fuel : nat) (d k : Z) : Z * Z :=
  match fuel with
  | O => (d, k)
  | S fuel =>
    if (0 <? d) && (d mod 10 =? 0) then strip_zeros fuel (d / 10) (k + 1)
    else (d, k)
  end.

(** The shortest decimal [d * 10^k] that [float_of_decimal] reads back as
    [FFin neg m e], the nearest one when two of that length do: tried with
    1 to 17 significant digits. *)
Fixpoint shortest_digits (fuel : nat) (n : Z) (neg : bool) (m e p : Z)
  : Z * Z :=
  let k := p - n in
  let '(num, den) := scale2 m 1 (- e) in
  let '(nk, dk) := if 0 <=? k then (num, den * 10 ^ k)
                   else (num * 10 ^ (- k), den) in
  let lo := nk / dk in
  let r := nk mod dk in
  let hi := lo + 1 in
  let ok_lo := match float_of_decimal neg lo k with
               | FFin _ m' e' => (0 <? lo) && (m' =? m) && (e' =? e)
               | _ => false
               end in
  let ok_hi := match float_of_decimal neg hi k with
               | FFin _ m' e' => (0 <? r) && (m' =? m) && (e' =? e)
               | _ => false
               end in
  let pick_lo := match (2 * r) ?= dk with
                 | Lt => true
                 | Gt => false
                 | Eq => Z.even lo
                 end in
  match fuel with
  | O => (round_div nk dk, k)
  | S fuel =>
    if ok_lo && (pick_lo || negb ok_hi) then (lo, k)
    else if ok_hi then (hi, k)
    else shortest_digits fuel (n + 1) neg m e p
  end.

Definition zeros (n : Z) : pystr := repeat 48 (Z.to_nat n).

(** Exponent as [float.__repr__] prints it: a sign and at least two digits. *)
Definition exponent_text (x : Z) : pystr :=
  let a := Z.abs x in
  101 :: (if x <? 0 then 45 else 43)
      :: (if a <? 10 then 48 :: nat_digits a else nat_digits a).

(** [float.__repr__] on a finite value (the [repr] format of CPython with
    short float repr): plain notation when [-4 < decpt <= 16], exponent
    notation otherwise. *)
Definition finite_repr (neg : bool) (m e : Z) : pystr :=
  let sign := if neg then [45] else [] in
  if m =? 0 then sign ++ [48; 46; 48] else
  let '(num, den) := scale2 m 1 (- e) in
  let p0 := (Z.log2 num - Z.log2 den) * 30103 / 100000 in
  let p := decimal_point 8 num den p0 in
  let '(d0, k0) := shortest_digits 16 1 neg m e p in
  let '(d, k) := strip_zeros 400 d0 k0 in
  let ds := nat_digits d in
  let nd := Z.of_nat (length ds) in
  let decpt := k + nd in
  sign ++
  if (decpt <=? -4) || (16 <? decpt) then
    match ds with
    | [] => []
    | d1 :: [] => d1 :: exponent_text (decpt - 1)
    | d1 :: rest => d1 :: 46 :: rest ++ exponent_text (decpt - 1)
    end
  else if decpt <=? 0 then
    48 :: 46 :: zeros (- decpt) ++ ds
  else if decpt <? nd then
    firstn (Z.to_nat decpt) ds ++ 46 :: skipn (Z.to_nat decpt) ds
  else
    ds ++ zeros (decpt - nd) ++ [46; 48].

Definition float_repr (f : pyfloat) : pystr :=
  match f with
  | FNan => py "nan"
  | FInf false => py "inf"
  | FInf true => py "-inf"
  | FFin neg m e => finite_repr neg m e
  end.

(** ** Python values

    What [json.loads] can return: [None], [bool], [int], [float], [str],
    [list] and [dict] with string keys.  A [dict] keeps its keys in insertion
    order, each once. *)

Unset Elimination Schemes.
Inductive pyvalue :=
| PNone
| PBool (b : bool)
| PInt (z : Z)
| PFloat (f : pyfloat)
| PStr (s : pystr)
| PList (l : list pyvalue)
| PDict (d : list (pystr * pyvalue)).
Set Elimination Schemes.

(** Induction with the hypothesis on every element of a list or dict. *)
Definition pyvalue_ind (P : pyvalue -> Prop)
  (HNone : P PNone)
  (HBool : forall b, P (PBool b))
  (HInt : forall z, P (PInt z))
  (HFloat : forall f, P (PFloat f))
  (HStr : forall s, P (PStr s))
  (HList : forall l, Forall P l -> P (PList l))
  (HDict : forall d, Forall (fun kv => P (snd kv)) d -> P (PDict d))
  : forall v, P v :=
  fix go (v : pyvalue) : P v :=
    match v with
    | PNone => HNone
    | PBool b => HBool b
    | PInt z => HInt z
    | PFloat f => HFloat f
    | PStr s => HStr s
    | PList l =>
      HList l ((fix all (l : list pyvalue) : Forall P l :=
                  match l with
                  | [] => Forall_nil _
                  | x :: l' => Forall_cons x (go x) (all l')
                  end) l)
    | PDict d =>
      HDict d ((fix all (d : list (pystr * pyvalue))
                  : Forall (fun kv => P (snd kv)) d :=
                  match d with
                  | [] => Forall_nil _
                  | kv :: d' => Forall_cons kv (go (snd kv)) (all d')
                  end) d)
    end.

Definition pydict := list (pystr * pyvalue).

(** [d[k] = v]: a key already present keeps its place. *)
Fixpoint dict_set (d : pydict) (k : pystr) (v : pyvalue) : pydict :=
  match d with
  | [] => [(k, v)]
  | (k', v') :: d' =>
    if pystr_eqb k' k then (k', v) :: d' else (k', v') :: dict_set d' k v
  end.

(** [d.get(k, default)]. *)
Fixpoint dict_get (d : pydict) (k : pystr) (default : pyvalue) : pyvalue :=
  match d with
  | [] => default
  | (k', v') :: d' => if pystr_eqb k' k then v' else dict_get d' k default
  end.

(** Truth value, as [not message] tests it. *)
Definition truthy (v : pyvalue) : bool :=
  match v with
  | PNone => false
  | PBool b => b
  | PInt z => negb (z =? 0)
  | PFloat FNan => true
  | PFloat (FInf _) => true
  | PFloat (FFin _ m _) => negb (m =? 0)
  | PStr s => match s with [] => false | _ => true end
  | PList l => match l with [] => false | _ => true end
  | PDict d => match d with [] => false | _ => true end
  end.

(** [sep.join(parts)]. *)
Fixpoint join (sep : pystr) (parts : list pystr) : pystr :=
  match parts with
  | [] => []
  | [p] => p
  | p :: ps => p ++ sep ++ join sep ps
  end.

(** Lower-case hexadecimal, [width] digits. *)
Definition hex_char (d : Z) : Z := if d <? 10 then 48 + d else 87 + d.

Fixpoint hex_digits (width : nat) (n : Z) : pystr :=
  match width with
  | O => []
  | S w => hex_digits w (Z.shiftr n 4) ++ [hex_char (Z.land n 15)]
  end.

(** The depth to which containers nest in a value: 0 for a number, a string
    or a constant, 1 for a list or a dict of these. *)
Fixpoint nesting (v : pyvalue) : nat :=
  match v with
  | PList l => S (list_max (map nesting l))
  | PDict d => S (list_max (map (fun kv => nesting (snd kv)) d))
  | _ => 0%nat
  end.

(** *** What the interpreter supplies

    Facts about the running CPython that the handler's behaviour depends on
    and the repository does not fix.

    - The Unicode table behind [str.isprintable] (used by [repr] of a string
      beyond ASCII), and whether a [slice] is hashable (it is from Python
      3.12 on, so that [d[:100]] on a [dict] raises [KeyError] rather than
      [TypeError]).

    - [sys.get_int_max_str_digits()]: the longest decimal literal [int]
      converts, 4300 digits by default; 0 stands for no limit (a limit that
      is set is 640 at least).  Past it the conversion raises [ValueError].

    - The room the recursion limit leaves where the handler runs.  The
      scanner of [json.loads] makes one recursive call for each container it
      is inside, and reporting a syntax error from inside containers takes a
      few calls more; both give [RecursionError] when the room is used up.
      The room depends on the limit, on the version and on the calls the
      handler was reached through, so it is left open, but for this: the
      interpreter that got as far as the handler's own calls to the logger
      can enter one container and report an error from it.  [nesting_room]
      and [error_room] count what it can do beyond that.

    - [json.dumps] and [str] recurse over the value as well; whether they
      run out of room is the interpreter's to say, [dumps_recursion] and
      [str_recursion], for a value that nests deeper than one container. *)

Class Interpreter := {
  isprintable : Z -> bool;
  slice_hashable : bool;
  int_max_str_digits : nat;
  nesting_room : nat;
  error_room : nat;
  dumps_recursion : pyvalue -> bool;
  str_recursion : pyvalue -> bool
}.

Section Repr.
Context {interp : Interpreter}.

(** [repr] of one character of a string quoted with [quote]. *)
Definition repr_char (quote c : Z) : pystr :=
  if (c =? quote) || (c =? 92) then [92; c]
  else if c =? 9 then [92; 116]
  else if c =? 10 then [92; 110]
  else if c =? 13 then [92; 114]
  else if (c <? 32) || (c =? 127) then 92 :: 120 :: hex_digits 2 c
  else if c <? 127 then [c]
  else if isprintable c then [c]
  else if c <=? 255 then 92 :: 120 :: hex_digits 2 c
  else if c <=? 65535 then 92 :: 117 :: hex_digits 4 c
  else 92 :: 85 :: hex_digits 8 c.

(** [repr(s)]: single quotes unless [s] holds one and no double quote. *)
Definition str_repr (s : pystr) : pystr :=
  let has c := existsb (Z.eqb c) s in
  let quote := if has 39 && negb (has 34) then 34 else 39 in
  quote :: flat_map (repr_char quote) s ++ [quote].

(** [repr(v)], which is what [str(data)] returns on a [dict]. *)
Fixpoint py_repr (v : pyvalue) : pystr :=
  match v with
  | PNone => py "None"
  | PBool true => py "True"
  | PBool false => py "False"
  | PInt z => int_repr z
  | PFloat f => float_repr f
  | PStr s => str_repr s
  | PList l => 91 :: join (py ", ") (map py_repr l) ++ [93]
  | PDict d =>
    123 :: join (py ", ")
             (map (fun kv => str_repr (fst kv) ++ py ": " ++ py_repr (snd kv)) d)
        ++ [125]
  end.

End Repr.

(** ** [json.dumps(value, indent=2)] *)

(** [encode_basestring_ascii] on one character. *)
Definition json_escape_char (c : Z) : pystr :=
  if c =? 34 then [92; 34]
  else if c =? 92 then [92; 92]
  else if c =? 10 then [92; 110]
  else if c =? 13 then [92; 114]
  else if c =? 9 then [92; 116]
  else if c =? 8 then [92; 98]
  else if c =? 12 then [92; 102]
  else if (32 <=? c) && (c <=? 126) then [c]
  else if c <? 65536 then 92 :: 117 :: hex_digits 4 c
  else
    let n := c - 65536 in
    let s1 := Z.lor 55296 (Z.land (Z.shiftr n 10) 1023) in
    let s2 := Z.lor 56320 (Z.land n 1023) in
    (92 :: 117 :: hex_digits 4 s1) ++ (92 :: 117 :: hex_digits 4 s2).

Definition encode_basestring_ascii (s : pystr) : pystr :=
  34 :: flat_map json_escape_char s ++ [34].

(** [floatstr]: [float.__repr__], except for the three special values. *)
Definition floatstr (f : pyfloat) : pystr :=
  match f with
  | FNan => py "NaN"
  | FInf false => py "Infinity"
  | FInf true => py "-Infinity"
  | FFin neg m e => finite_repr neg m e
  end.

(** A newline and the indentation of nesting [level], two spaces a level. *)
Definition newline_indent (level : nat) : pystr :=
  10 :: repeat 32 (2 * level).

Fixpoint iterencode (level : nat) (v : pyvalue) : pystr :=
  match v with
  | PNone => py "null"
  | PBool true => py "true"
  | PBool false => py "false"
  | PInt z => int_repr z
  | PFloat f => floatstr f
  | PStr s => encode_basestring_ascii s
  | PList [] => py "[]"
  | PList l =>
    91 :: newline_indent (S level)
       ++ join (44 :: newline_indent (S level)) (map (iterencode (S level)) l)
       ++ newline_indent level ++ [93]
  | PDict [] => py "{}"
  | PDict d =>
    123 :: newline_indent (S level)
        ++ join (44 :: newline_indent (S level))
             (map (fun kv => encode_basestring_ascii (fst kv) ++ py ": "
                             ++ iterencode (S level) (snd kv)) d)
        ++ newline_indent level ++ [125]
  end.

Definition json_dumps (v : pyvalue) : pystr := iterencode 0 v.

(** ** [json.loads(text)]

    The decoder of CPython's [json] package with its defaults: the JSON
    grammar with the literals [NaN], [Infinity] and [-Infinity], control
    characters refused inside strings, a repeated key keeping the last value.
    The text is read from left to right and the first failure ends the call.
    A failure of syntax is a [JSONDecodeError]; the two limits of the
    interpreter give a [ValueError] that is not a [JSONDecodeError] (an
    integer literal with too many digits) and a [RecursionError] (containers
    nested too deep). *)

Inductive failure :=
| IntegerTooLong   (* [ValueError]: the limit for integer string conversion *)
| TooDeep.         (* [RecursionError] *)

Inductive parse (A : Type) :=
| Parsed (a : A) (rest : pystr)
| DecodeError
| Failed (e : failure)
| NoFuel.
Arguments Parsed {A} a rest.
Arguments DecodeError {A}.
Arguments Failed {A} e.
Arguments NoFuel {A}.

Definition is_whitespace (c : Z) : bool :=
  (c =? 32) || (c =? 9) || (c =? 10) || (c =? 13).

Fixpoint skip_ws (s : pystr) : pystr :=
  match s with
  | c :: r => if is_whitespace c then skip_ws r else s
  | [] => []
  end.

Definition is_digit (c : Z) : bool := (48 <=? c) && (c <=? 57).

Definition hex_value (c : Z) : option Z :=
  if is_digit c then Some (c - 48)
  else if (97 <=? c) && (c <=? 102) then Some (c - 87)
  else if (65 <=? c) && (c <=? 70) then Some (c - 55)
  else None.

(** [\uXXXX]: four hexadecimal digits. *)
Definition decode_uXXXX (h1 h2 h3 h4 : Z) : option Z :=
  match hex_value h1, hex_value h2, hex_value h3, hex_value h4 with
  | Some a, Some b, Some c, Some d => Some (((a * 16 + b) * 16 + c) * 16 + d)
  | _, _, _, _ => None
  end.

Definition is_high_surrogate (u : Z) : bool := (55296 <=? u) && (u <=? 56319).
Definition is_low_surrogate (u : Z) : bool := (56320 <=? u) && (u <=? 57343).

Definition join_surrogates (hi lo : Z) : Z :=
  65536 + Z.lor (Z.shiftl (hi - 55296) 10) (lo - 56320).

Definition backslash_escape (c : Z) : option Z :=
  if c =? 34 then Some 34
  else if c =? 92 then Some 92
  else if c =? 47 then Some 47
  else if c =? 98 then Some 8
  else if c =? 102 then Some 12
  else if c =? 110 then Some 10
  else if c =? 114 then Some 13
  else if c =? 116 then Some 9
  else None.

(** [scanstring] after the opening quote; [acc] holds the characters read so
    far, last first. *)
Fixpoint scanstring (s : pystr) (acc : pystr) : parse pystr :=
  match s with
  | [] => DecodeError
  | c :: r =>
    if c =? 34 then Parsed (rev acc) r
    else if c =? 92 then
      match r with
      | [] => DecodeError
      | esc :: r1 =>
        if esc =? 117 then
          match r1 with
          | h1 :: h2 :: h3 :: h4 :: r2 =>
            match decode_uXXXX h1 h2 h3 h4 with
            | None => DecodeError
            | Some uni =>
              match r2 with
              | b :: u :: g1 :: g2 :: g3 :: g4 :: r3 =>
                if is_high_surrogate uni && (b =? 92) && (u =? 117) then
                  match decode_uXXXX g1 g2 g3 g4 with
                  | None => DecodeError
                  | Some uni2 =>
                    if is_low_surrogate uni2
                    then scanstring r3 (join_surrogates uni uni2 :: acc)
                    else scanstring r2 (uni :: acc)
                  end
                else scanstring r2 (uni :: acc)
              | _ => scanstring r2 (uni :: acc)
              end
            end
          | _ => DecodeError
          end
        else
          match backslash_escape esc with
          | Some ch => scanstring r1 (ch :: acc)
          | None => DecodeError
          end
      end
    else if (0 <=? c) && (c <? 32) then DecodeError
    else scanstring r (c :: acc)
  end.

(** The longest run of digits at the head of [s], and what follows it. *)
Fixpoint span_digits (s : pystr) : pystr * pystr :=
  match s with
  | c :: r =>
    if is_digit c then let '(ds, rest) := span_digits r in (c :: ds, rest)
    else ([], s)
  | [] => ([], [])
  end.

(** An exponent [e], [E], an optional sign and at least one digit. *)
Definition match_exponent (s : pystr) : option (Z * pystr) :=
  match s with
  | e :: r =>
    if (e =? 101) || (e =? 69) then
      let '(neg, r1) :=
        match r with
        | sg :: r' => if sg =? 45 then (true, r')
                      else if sg =? 43 then (false, r')
                      else (false, r)
        | [] => (false, r)
        end in
      match span_digits r1 with
      | ([], _) => None
      | (ds, rest) =>
        Some (if neg then - digits_value ds else digits_value ds, rest)
      end
    else None
  | [] => None
  end.

Definition match_fraction (s : pystr) : option (pystr * pystr) :=
  match s with
  | dot :: d :: r =>
    if (dot =? 46) && is_digit d then Some (span_digits (d :: r)) else None
  | _ => None
  end.

(** [s] without the prefix [lit], when it starts with it. *)
Fixpoint strip_prefix (lit s : pystr) : option pystr :=
  match lit, s with
  | [], _ => Some s
  | a :: lit', c :: s' => if a =? c then strip_prefix lit' s' else None
  | _ :: _, [] => None
  end.

Definition literal (lit : string) (v : pyvalue) (s : pystr)
  : option (parse pyvalue) :=
  match strip_prefix (py lit) s with
  | Some rest => Some (Parsed v rest)
  | None => None
  end.

Inductive loaded :=
| Loaded (v : pyvalue)
| JSONDecodeError
| ValueError       (* of [int], not a [JSONDecodeError] *)
| RecursionError.

Section Loads.
Context {interp : Interpreter}.

(** The containers [json.loads] can be inside of at once, and the number of
    them from inside which it can still report a syntax error. *)
Definition max_nesting : nat := S nesting_room.
Definition max_error_nesting : nat := S error_room.

(** [int] refuses a literal of [digits] digits (the sign is not counted)
    when a limit is set and the literal is longer; literals of up to 640
    digits are never checked. *)
Definition exceeds_int_max_str_digits (digits : nat) : bool :=
  ((640 <? digits) && (0 <? int_max_str_digits)
   && (int_max_str_digits <? digits))%nat.

(** An error of syntax that the scanner reports from inside [depth]
    containers.  ("Expecting value" is not one of these: the scanner leaves
    it to its caller, which reports it from outside every container.) *)
Definition syntax_error {A : Type} (depth : nat) : parse A :=
  if (depth <=? max_error_nesting)%nat then DecodeError else Failed TooDeep.

(** [match_number]: an [int], or a [float] when the literal has a fraction
    or an exponent.  Only an [int] has a limit on its digits. *)
Definition match_number (s : pystr) : parse pyvalue :=
  let '(neg, s1) :=
    match s with
    | c :: r => if c =? 45 then (true, r) else (false, s)
    | [] => (false, s)
    end in
  match s1 with
  | [] => DecodeError
  | c :: r =>
    if negb (is_digit c) then DecodeError else
    let '(ints, s2) := if c =? 48 then ([c], r) else span_digits s1 in
    let '(frac, s3) := match match_fraction s2 with
                       | Some (ds, rest) => (Some ds, rest)
                       | None => (None, s2)
                       end in
    let '(expo, s4) := match match_exponent s3 with
                       | Some (x, rest) => (Some x, rest)
                       | None => (None, s3)
                       end in
    match frac, expo with
    | None, None =>
      if exceeds_int_max_str_digits (length ints) then Failed IntegerTooLong
      else
        Parsed (PInt (if neg then - digits_value ints else digits_value ints))
               s4
    | _, _ =>
      let fs := match frac with Some ds => ds | None => [] end in
      let x := match expo with Some x => x | None => 0 end in
      Parsed (PFloat (float_of_decimal neg (digits_value (ints ++ fs))
                        (x - Z.of_nat (length fs)))) s4
    end
  end.

(** The elements of an array after its first character was seen not to be
    the closing bracket; [depth] counts the containers around the elements,
    the array included. *)
Fixpoint array_items (fuel depth : nat) (scan : pystr -> parse pyvalue)
         (s : pystr) (acc : list pyvalue) : parse pyvalue :=
  match fuel with
  | O => NoFuel
  | S fuel =>
    match scan s with
    | Parsed v r =>
      match skip_ws r with
      | c :: r1 =>
        if c =? 93 then Parsed (PList (rev (v :: acc))) r1
        else if c =? 44
        then array_items fuel depth scan (skip_ws r1) (v :: acc)
        else syntax_error depth
      | [] => syntax_error depth
      end
    | DecodeError => DecodeError
    | Failed e => Failed e
    | NoFuel => NoFuel
    end
  end.

(** The members of an object after its first character was seen not to be
    the closing brace; [depth] counts the containers around the members, the
    object included. *)
Fixpoint object_items (fuel depth : nat) (scan : pystr -> parse pyvalue)
         (s : pystr) (acc : pydict) : parse pyvalue :=
  match fuel with
  | O => NoFuel
  | S fuel =>
    match s with
    | q :: r =>
      if negb (q =? 34) then syntax_error depth else
      match scanstring r [] with
      | Parsed key r1 =>
        match skip_ws r1 with
        | colon :: r2 =>
          if negb (colon =? 58) then syntax_error depth else
          match scan (skip_ws r2) with
          | Parsed v r3 =>
            match skip_ws r3 with
            | c :: r4 =>
              if c =? 125 then Parsed (PDict (dict_set acc key v)) r4
              else if c =? 44
              then object_items fuel depth scan (skip_ws r4)
                                (dict_set acc key v)
              else syntax_error depth
            | [] => syntax_error depth
            end
          | DecodeError => DecodeError
          | Failed e => Failed e
          | NoFuel => NoFuel
          end
        | [] => syntax_error depth
        end
      | DecodeError => syntax_error depth
      | Failed e => Failed e
      | NoFuel => NoFuel
      end
    | [] => syntax_error depth
    end
  end.

(** [scan_once]: one JSON value at the head of [s], inside [depth]
    containers.  A container is entered, even an empty one, only when there
    is room for it. *)
Fixpoint scan_once (fuel depth : nat) (s : pystr) : parse pyvalue :=
  match fuel with
  | O => NoFuel
  | S fuel =>
    match s with
    | [] => DecodeError
    | c :: r =>
      if c =? 34 then
        match scanstring r [] with
        | Parsed str rest => Parsed (PStr str) rest
        | DecodeError => syntax_error depth
        | Failed e => Failed e
        | NoFuel => NoFuel
        end
      else if c =? 123 then
        if (max_nesting <=? depth)%nat then Failed TooDeep else
        match skip_ws r with
        | c1 :: r1 =>
          if c1 =? 125 then Parsed (PDict []) r1
          else object_items fuel (S depth) (scan_once fuel (S depth))
                            (c1 :: r1) []
        | [] => syntax_error (S depth)
        end
      else if c =? 91 then
        if (max_nesting <=? depth)%nat then Failed TooDeep else
        match skip_ws r with
        | c1 :: r1 =>
          if c1 =? 93 then Parsed (PList []) r1
          else array_items fuel (S depth) (scan_once fuel (S depth))
                           (c1 :: r1) []
        | [] => DecodeError
        end
      else
        match literal "null" PNone s with Some p => p | None =>
        match literal "true" (PBool true) s with Some p => p | None =>
        match literal "false" (PBool false) s with Some p => p | None =>
        match literal "NaN" (PFloat FNan) s with Some p => p | None =>
        match literal "Infinity" (PFloat (FInf false)) s with Some p => p | None =>
        match literal "-Infinity" (PFloat (FInf true)) s with Some p => p | None =>
        match_number s
        end end end end end end
    end
  end.

(** [json.loads] on a [str]: a byte-order mark is refused, white space may
    surround the value, anything else after it is an error.  The fuel given
    to [scan_once] always suffices ([scan_once_fuel] below). *)
Definition json_loads (s : pystr) : loaded :=
  match s with
  | 65279 :: _ => JSONDecodeError
  | _ =>
    match scan_once (S (length s)) 0 (skip_ws s) with
    | Parsed v rest =>
      match skip_ws rest with
      | [] => Loaded v
      | _ :: _ => JSONDecodeError
      end
    | DecodeError => JSONDecodeError
    | Failed IntegerTooLong => ValueError
    | Failed TooDeep => RecursionError
    | NoFuel => JSONDecodeError
    end
  end.

(** Line 307, [json.dumps(parsed_json, indent=2)], and line 274,
    [str(data)]: each raises [RecursionError] when the interpreter runs out
    of room on a value nested deeper than one container. *)
Definition dumps_raises (v : pyvalue) : bool :=
  (1 <? nesting v)%nat && dumps_recursion v.

Definition str_raises (v : pyvalue) : bool :=
  (1 <? nesting v)%nat && str_recursion v.

End Loads.

(** ** Exceptions

    [Raise] stands for an exception that nothing inside the [try] body of
    [webhook_handler] catches, so that it reaches the handler's final
    [except Exception]. *)

Inductive outcome (A : Type) :=
| Return (a : A)
| Raise.
Arguments Return {A} a.
Arguments Raise {A}.

Definition bind {A B : Type} (m : outcome A) (k : A -> outcome B) : outcome B :=
  match m with
  | Return a => k a
  | Raise => Raise
  end.

Notation "x <- m ;; k" := (bind m (fun x => k))
  (at level 61, m at next level, right associativity).

(** ** [webhook_handler] *)

(** [str.replace(old, new)] for a one-character [old]. *)
Definition str_replace (old : Z) (new : pystr) (s : pystr) : pystr :=
  flat_map (fun c => if c =? old then new else [c]) s.

(** Line 269: every byte outside 32..126 that is not tab, newline or
    carriage return becomes a space; [chr] keeps the others. *)
Definition clean_byte (b : Z) : Z :=
  if ((32 <=? b) && (b <=? 126)) || (b =? 9) || (b =? 10) || (b =? 13)
  then b else 32.

Definition clean_raw_body (raw_body : pybytes) : pystr :=
  map clean_byte raw_body.

Definition application_json : pystr := py "application/json".

(** Line 313: the test of the generator, on a one-character string. *)
Definition keep_char (c : Z) : bool :=
  (32 <=? c) || (c =? 10) || (c =? 13) || (c =? 9).

(** What iterating over [message] yields: the characters of a string, the
    elements of a list, the keys of a dict; anything else is not iterable
    ([TypeError]). *)
Definition py_iter (message : pyvalue) : outcome (list pyvalue) :=
  match message with
  | PStr s => Return (map (fun c => PStr [c]) s)
  | PList l => Return l
  | PDict d => Return (map (fun kv => PStr (fst kv)) d)
  | _ => Raise
  end.

(** Line 313: [''.join(char for char in message if ord(char) >= 32 or char
    in '\n\r\t')]; [ord] raises [TypeError] on anything but a string of
    length one. *)
Fixpoint clean_message (items : list pyvalue) : outcome pystr :=
  match items with
  | [] => Return []
  | PStr [c] :: rest =>
    tail <- clean_message rest ;;
    Return (if keep_char c then c :: tail else tail)
  | _ :: _ => Raise
  end.

(** Line 314: the five replacements, in the order of the source. *)
Definition escape_markdown (clean : pystr) : pystr :=
  str_replace 96 [92; 96]
    (str_replace 93 [92; 93]
       (str_replace 91 [92; 91]
          (str_replace 42 [92; 42]
             (str_replace 95 [92; 95] clean)))).

(** Line 307: the code block around the pretty-printed value. *)
Definition code_block (payload : pystr) : pystr :=
  py "```json" ++ [10] ++ payload ++ [10] ++ py "```".

(** Line 316. *)
Definition notification_text (topic_name formatted : pystr) : pystr :=
  [128276] ++ py " **" ++ topic_name ++ py "**" ++ [10; 10] ++ formatted.

Inductive attempt :=
| Formatted (text : pystr)   (* the [try] body ran to its end *)
| Caught                     (* [json.JSONDecodeError] or [TypeError] *)
| Uncaught.                  (* any other exception *)

Record response := mk_response {
  status : Z;
  text : pystr
}.

(** What the handler does to the outside, in order. *)
Inductive event :=
| GetTopic (name : pystr)
| ReadBody
| SendMessage (chat : Z) (text : pystr).

(** What [session.post] comes back with: a response with its status, or an
    [aiohttp.ClientError]. *)
Inductive backend :=
| Replied (status : Z)
| ClientError.

Section Handler.
Context {interp : Interpreter}.

(** Lines 265-283: the message of a request.  Only [JSONDecodeError] is
    caught at line 275: the other failures of [json.loads] reach the final
    [except Exception], as does the [AttributeError] of [data.get] on a
    value that is not a [dict].  [str(data)], the default handed to [get],
    is evaluated whether the key is there or not. *)
Definition read_message (content_type : pystr) (raw_body : pybytes)
  : outcome pyvalue :=
  if pystr_eqb content_type application_json then
    match json_loads (clean_raw_body raw_body) with
    | Loaded data =>
      match data with
      | PDict d =>
        if str_raises data then Raise
        else Return (dict_get d (py "message") (PStr (py_repr data)))
      | _ => Raise   (* [data.get]: AttributeError *)
      end
    | JSONDecodeError => Return (PStr (utf8_decode_replace raw_body))
    | ValueError => Raise
    | RecursionError => Raise
    end
  else Return (PStr (utf8_decode_replace raw_body)).

(** Lines 301-308: the [try] body.  [message[:100]] comes first: it raises
    [TypeError] on a value that cannot be sliced, and on a [dict] either
    [TypeError] or, with hashable slices, [KeyError].  [json.loads] raises
    [TypeError] on a value that is not a string.  Line 309 catches
    [JSONDecodeError] and [TypeError] and nothing else: not the [ValueError]
    of an integer literal that is too long, not a [RecursionError]. *)
Definition try_json (message : pyvalue) : attempt :=
  match message with
  | PStr s =>
    match json_loads s with
    | Loaded parsed_json =>
      if dumps_raises parsed_json then Uncaught
      else Formatted (code_block (json_dumps parsed_json))
    | JSONDecodeError => Caught
    | ValueError => Uncaught
    | RecursionError => Uncaught
    end
  | PList _ => Caught
  | PDict _ => if slice_hashable then Uncaught else Caught
  | _ => Caught
  end.

(** Lines 300-314: [formatted_message]. *)
Definition format_message (message : pyvalue) : outcome pystr :=
  match try_json message with
  | Formatted text => Return text
  | Caught =>
    items <- py_iter message ;;
    clean <- clean_message items ;;
    Return (escape_markdown clean)
  | Uncaught => Raise
  end.

(** Line 290: [len(message)], for the log; a number, a boolean or [None]
    has no length ([TypeError]). *)
Definition py_len (message : pyvalue) : outcome Z :=
  match message with
  | PStr s => Return (Z.of_nat (length s))
  | PList l => Return (Z.of_nat (length l))
  | PDict d => Return (Z.of_nat (length d))
  | _ => Raise
  end.

(** Lines 288-314: what becomes of a message that is not empty. *)
Definition log_and_format (message : pyvalue) : outcome pystr :=
  _ <- py_len message ;;
  format_message message.

Definition internal_server_error : response :=
  mk_response 500 (py "Internal server error").

(** The handler: [db] is the table behind the global [db] object, [post]
    the Telegram API as the one [session.post] call sees it, [raw_body] the
    bytes that [await request.read()] returned at line 258. *)
Definition webhook_handler (db : TopicDatabase.table)
           (post : Z -> pystr -> backend)
           (topic_name content_type : pystr) (raw_body : pybytes)
  : response * list event :=
  match TopicDatabase.get_topic db topic_name with
  | None => (mk_response 404 (py "Topic not found"), [GetTopic topic_name])
  | Some topic_info =>
    let before := [GetTopic topic_name; ReadBody] in
    match read_message content_type raw_body with
    | Raise => (internal_server_error, before)
    | Return message =>
      if negb (truthy message)
      then (mk_response 400 (py "No message provided"), before)
      else
        match log_and_format message with
        | Raise => (internal_server_error, before)
        | Return formatted_message =>
          let chat := TopicDatabase.chat_id topic_info in
          let text := notification_text topic_name formatted_message in
          let trace := before ++ [SendMessage chat text] in
          match post chat text with
          | Replied code =>
            if code =? 200
            then (mk_response 200 (py "Notification sent"), trace)
            else (mk_response 500 (py "Failed to send notification"), trace)
          | ClientError => (internal_server_error, trace)
          end
        end
    end
  end.

End Handler.

(** A statement about the handler holds whatever the interpreter is. *)
Definition every_interpreter (P : Interpreter -> Prop) : Prop :=
  forall interp : Interpreter, P interp.

(** ** The Telegram commands

    [NotifierBot.register_command], [unregister_command] and
    [list_topics_command]: [args] is [context.args], the words after the
    command; the user and the chat are those of the update.  A command
    returns the table it leaves and the reply it hands to
    [update.message.reply_text]. *)

(** [str.isalnum] on one character is a question to the Unicode database;
    on ASCII the answer is the letters and the digits. *)
Definition ascii_alnum (c : Z) : bool :=
  ((48 <=? c) && (c <=? 57)) || ((65 <=? c) && (c <=? 90))
  || ((97 <=? c) && (c <=? 122)).

Class UnicodeData := {
  isalnum_char : Z -> bool;
  isalnum_char_ascii :
    forall c, 0 <= c < 128 -> isalnum_char c = ascii_alnum c
}.

Record reply := mk_reply {
  reply_text : pystr;
  parse_mode : option pystr
}.

Definition plain_reply (text : pystr) : reply := mk_reply text None.

Definition markdown_reply (text : pystr) : reply :=
  mk_reply text (Some (py "Markdown")).

Section Commands.
Context {unicode : UnicodeData} {sqlite : TopicDatabase.OrderBy}.

(** [s.isalnum()]: every character alphanumeric, and at least one. *)
Definition isalnum (s : pystr) : bool :=
  match s with
  | [] => false
  | _ :: _ => forallb isalnum_char s
  end.

(** Line 199: [topic_name.replace("-", "").replace("_", "").isalnum()]. *)
Definition valid_topic_name (topic_name : pystr) : bool :=
  isalnum (str_replace 95 [] (str_replace 45 [] topic_name)).

Definition register_usage : reply :=
  plain_reply (py "Please provide a topic name: /register <topic_name>").

Definition register_invalid : reply :=
  plain_reply
    ([10060] ++ py " Topic name can only contain letters, numbers, hyphens, and underscores.").

Definition register_done (topic_name : pystr) : reply :=
  markdown_reply
    ([9989] ++ py " Topic '" ++ topic_name ++ py "' registered!" ++ [10; 10]
     ++ [128279] ++ py " Webhook endpoint: `/" ++ topic_name ++ py "`"
     ++ [10; 10]
     ++ py "Others can now POST to: `http://your-server:8080/" ++ topic_name
     ++ py "`").

Definition register_taken (topic_name : pystr) : reply :=
  plain_reply
    ([10060] ++ py " Topic '" ++ topic_name
     ++ py "' is already taken. Please choose a different name.").

(** [register_command]; [now] is the timestamp SQLite gives the new row. *)
Definition register_command (db : TopicDatabase.table) (now : Z)
           (args : list pystr) (user_id chat_id : Z)
  : TopicDatabase.table * reply :=
  match args with
  | [] => (db, register_usage)
  | _ :: _ =>
    let topic_name := join [32] args in
    if negb (valid_topic_name topic_name) then (db, register_invalid)
    else
      let '(added, db') :=
        TopicDatabase.add_topic db topic_name user_id chat_id now in
      if added then (db', register_done topic_name)
      else (db', register_taken topic_name)
  end.

Definition unregister_usage : reply :=
  plain_reply (py "Please provide a topic name: /unregister <topic_name>").

Definition unregister_done (topic_name : pystr) : reply :=
  plain_reply ([9989] ++ py " Topic '" ++ topic_name ++ py "' unregistered!").

Definition unregister_not_found (topic_name : pystr) : reply :=
  plain_reply ([10060] ++ py " Topic '" ++ topic_name ++ py "' not found!").

(** [unregister_command]. *)
Definition unregister_command (db : TopicDatabase.table)
           (args : list pystr) (user_id : Z)
  : TopicDatabase.table * reply :=
  match args with
  | [] => (db, unregister_usage)
  | _ :: _ =>
    let topic_name := join [32] args in
    let '(deleted, db') := TopicDatabase.delete_topic db user_id topic_name in
    if deleted then (db', unregister_done topic_name)
    else (db', unregister_not_found topic_name)
  end.

Definition list_empty : reply :=
  plain_reply ([128203] ++ py " You have no registered topics.").

(** Line 240: one line of the list. *)
Definition topic_line (topic : TopicDatabase.row) : pystr :=
  [8226] ++ py " `" ++ TopicDatabase.topic_name topic ++ py "`".

(** [list_topics_command]; it leaves the table alone. *)
Definition list_topics_command (db : TopicDatabase.table) (user_id : Z)
  : reply :=
  match TopicDatabase.get_user_topics db user_id with
  | [] => list_empty
  | user_topics =>
    markdown_reply
      ([128203] ++ py " Your registered topics:" ++ [10; 10]
       ++ join [10] (map topic_line user_topics))
  end.

End Commands.

(** * Definitions used to state the properties *)

(** ** Progress of a scanner

    A scanner makes progress on [s] when it fails or leaves a strictly
    shorter rest, and does not stop for lack of fuel. *)

Definition progress {A : Type} (p : parse A) (s : pystr) : Prop :=
  match p with
  | Parsed _ rest => (length rest < length s)%nat
  | DecodeError => True
  | Failed _ => True
  | NoFuel => False
  end.

(** A scanner that makes progress on every string up to the length of [s]. *)
Definition progresses_upto (scan : pystr -> parse pyvalue) (s : pystr) : Prop :=
  forall s', (length s' <= length s)%nat -> progress (scan s') s'.

(** ** The text [json.dumps] writes: printable ASCII and newlines *)

Definition json_text_char (c : Z) : bool :=
  ((32 <=? c) && (c <=? 126)) || (c =? 10).

Definition json_text (s : pystr) : Prop := forallb json_text_char s = true.

(** ** Free text, in the words of the specification *)

(** The free-text treatment in the words of the specification: drop the
    characters below 32 other than tab, newline and carriage return, then
    put a backslash before each underscore, asterisk, square bracket and
    backtick. *)

Definition is_stripped (c : Z) : bool :=
  (c <? 32) && negb ((c =? 9) || (c =? 10) || (c =? 13)).

Definition strip_controls (s : pystr) : pystr :=
  filter (fun c => negb (is_stripped c)) s.

Definition markdown_special (c : Z) : bool :=
  (c =? 95) || (c =? 42) || (c =? 91) || (c =? 93) || (c =? 96).

Definition escape_each (s : pystr) : pystr :=
  flat_map (fun c => if markdown_special c then [92; c] else [c]) s.

(** ** Traces, dictionaries and the fixture of the scenarios *)

Definition is_send (e : event) : bool :=
  match e with
  | SendMessage _ _ => true
  | _ => false
  end.

(** The number of calls to the Telegram API in a trace. *)
Definition backend_calls (trace : list event) : nat :=
  length (filter is_send trace).

(** [d[k]] when the key is there. *)
Fixpoint dict_find (d : pydict) (k : pystr) : option pyvalue :=
  match d with
  | [] => None
  | (k', v') :: d' => if pystr_eqb k' k then Some v' else dict_find d' k
  end.

(** A fixture for the scenarios of the specification: the table after
    [Add("alerts-1", user=42, dest=42)], and a backend that answers every
    call with the given status. *)
Definition alerts_db : TopicDatabase.table :=
  [TopicDatabase.mk_row (py "alerts-1") 42 42 0].

Definition answering (code : Z) : Z -> pystr -> backend :=
  fun _ _ => Replied code.

Definition alerts_trace : list event := [GetTopic (py "alerts-1"); ReadBody].

Definition alerts_sent (formatted : pystr) : list event :=
  alerts_trace
  ++ [SendMessage 42 (notification_text (py "alerts-1") formatted)].

(** ** The commands: quantifying over what the platform supplies *)

Definition every_unicode (P : UnicodeData -> Prop) : Prop :=
  forall unicode : UnicodeData, P unicode.

Definition every_sqlite (P : TopicDatabase.OrderBy -> Prop) : Prop :=
  forall sqlite : TopicDatabase.OrderBy, P sqlite.

(** A registry as the commands keep it: names unique, and every name one
    that line 199 lets through. *)
Definition well_formed_registry {unicode : UnicodeData}
           (db : TopicDatabase.table) : Prop :=
  TopicDatabase.primary_key db
  /\ Forall (fun r => valid_topic_name (TopicDatabase.topic_name r) = true) db.

(** Reading an escaped text back: a backslash before a special character
    is dropped. *)
Fixpoint unescape_markdown (s : pystr) : pystr :=
  match s with
  | [] => []
  | c :: rest =>
    match rest with
    | d :: rest' =>
      if (c =? 92) && markdown_special d
      then d :: unescape_markdown rest'
      else c :: unescape_markdown rest
    | [] => [c]
    end
  end.

(** A character of plain text: printable ASCII that Markdown does not
    read. *)
Definition plain_char (c : Z) : bool :=
  (32 <=? c) && (c <=? 126) && negb (markdown_special c).

(** The row of the fixture. *)
Definition alerts_row : TopicDatabase.row :=
  TopicDatabase.mk_row (py "alerts-1") 42 42 0.

(** Insertion sort by timestamp, newest first: one way to order. *)
Fixpoint insert_newest (r : TopicDatabase.row) (rows : TopicDatabase.table)
  : TopicDatabase.table :=
  match rows with
  | [] => [r]
  | x :: rest =>
    if TopicDatabase.created_at x <=? TopicDatabase.created_at r
    then r :: rows
    else x :: insert_newest r rest
  end.

Definition sort_newest (rows : TopicDatabase.table) : TopicDatabase.table :=
  fold_right insert_newest [] rows.

(** * Properties *)

(** ** Strings *)

Lemma pystr_eqb_eq (a b : pystr) : pystr_eqb a b = true <-> a = b.
Proof.
  unfold pystr_eqb. destruct (pystr_eq_dec a b); split; congruence.
Qed.

Lemma pystr_eqb_refl (a : pystr) : pystr_eqb a a = true.
Proof. now apply pystr_eqb_eq. Qed.

Lemma pystr_eqb_neq (a b : pystr) : pystr_eqb a b = false <-> a <> b.
Proof.
  unfold pystr_eqb. destruct (pystr_eq_dec a b); split; congruence.
Qed.

(** ** Decoding bytes *)

Example decode_e_acute : utf8_decode_replace [195; 169] = [233].
Proof. reflexivity. Qed.

Example decode_bell : utf8_decode_replace [240; 159; 148; 148] = [128276].
Proof. reflexivity. Qed.

Example decode_truncated : utf8_decode_replace [226; 130] = [65533].
Proof. reflexivity. Qed.

Example decode_surrogate : utf8_decode_replace [237; 160; 128; 65]
                           = [65533; 65533; 65533; 65].
Proof. reflexivity. Qed.

Example decode_bad_tail : utf8_decode_replace [226; 130; 65] = [65533; 65].
Proof. reflexivity. Qed.


(** ** The topic table *)

Module TopicDatabaseFacts.
Import TopicDatabase.

Lemma has_name_true (name : pystr) (r : row) :
  has_name name r = true <-> topic_name r = name.
Proof. apply pystr_eqb_eq. Qed.

Lemma owned_by_true (uid : Z) (name : pystr) (r : row) :
  owned_by uid name r = true <-> user_id r = uid /\ topic_name r = name.
Proof.
  unfold owned_by. rewrite andb_true_iff, Z.eqb_eq, pystr_eqb_eq. tauto.
Qed.

Lemma owned_by_false (uid : Z) (name : pystr) (r : row) :
  owned_by uid name r = false <-> ~ (user_id r = uid /\ topic_name r = name).
Proof.
  rewrite <- owned_by_true. destruct (owned_by uid name r); split; congruence.
Qed.

Lemma init_database_primary_key : primary_key init_database.
Proof. constructor. Qed.

Lemma existsb_has_name (db : table) (name : pystr) :
  existsb (has_name name) db = true <-> In name (map topic_name db).
Proof.
  rewrite existsb_exists, in_map_iff. split.
  - intros (r & Hin & Hn). exists r. split; [now apply has_name_true | easy].
  - intros (r & Hn & Hin). exists r. split; [easy | now apply has_name_true].
Qed.

(** X6.  The primary key holds along every run: [add_topic] keeps it. *)
Lemma add_topic_primary_key (db : table) (name : pystr) (uid cid now : Z) :
  primary_key db -> primary_key (snd (add_topic db name uid cid now)).
Proof.
  unfold add_topic, primary_key. intros Hpk.
  destruct (existsb (has_name name) db) eqn:E; simpl; [assumption |].
  rewrite map_app. simpl.
  apply NoDup_app; [assumption | repeat constructor; simpl; tauto |].
  intros x Hx [<- | []].
  apply existsb_has_name in Hx. congruence.
Qed.

Lemma filter_primary_key (f : row -> bool) (db : table) :
  primary_key db -> primary_key (filter f db).
Proof.
  unfold primary_key. induction db as [| r db IH]; simpl; intros Hpk.
  - constructor.
  - inversion Hpk as [| ? ? Hnot Hrest]; subst.
    destruct (f r); simpl; [| now apply IH].
    constructor; [| now apply IH].
    intros Hin. apply Hnot. apply in_map_iff in Hin as (r' & <- & Hr').
    apply filter_In in Hr' as [Hr' _]. now apply in_map.
Qed.

(** ... and so does [delete_topic]. *)
Lemma delete_topic_primary_key (db : table) (uid : Z) (name : pystr) :
  primary_key db -> primary_key (snd (delete_topic db uid name)).
Proof. apply filter_primary_key. Qed.

Lemma filter_all (A : Type) (f : A -> bool) (l : list A) :
  (forall x, In x l -> f x = true) -> filter f l = l.
Proof.
  induction l as [| x l IH]; simpl; intros H; [reflexivity |].
  rewrite (H x) by now left. f_equal. apply IH. intros y Hy. apply H. now right.
Qed.

Lemma filter_none (A : Type) (f : A -> bool) (l : list A) :
  (forall x, In x l -> f x = false) -> filter f l = [].
Proof.
  induction l as [| x l IH]; simpl; intros H; [reflexivity |].
  rewrite (H x) by now left. apply IH. intros y Hy. apply H. now right.
Qed.

(** Without a row of that owner and name, [delete_topic] changes nothing. *)
Lemma delete_topic_absent (db : table) (uid : Z) (name : pystr) :
  (forall r, In r db -> owned_by uid name r = false) ->
  delete_topic db uid name = (false, db).
Proof.
  intros H. unfold delete_topic.
  rewrite (filter_none _ _ _ H), filter_all; [reflexivity |].
  intros r Hr. now rewrite (H r Hr).
Qed.

(** Under the primary key, the rows around a row named [name] have other
    names. *)
Lemma primary_key_split (before after : table) (r : row) :
  primary_key (before ++ r :: after) ->
  forall r', In r' (before ++ after) -> topic_name r' <> topic_name r.
Proof.
  unfold primary_key. rewrite map_app. simpl. intros Hpk r' Hin Heq.
  apply NoDup_remove_2 in Hpk. apply Hpk.
  rewrite <- map_app, <- Heq. now apply in_map.
Qed.

Lemma delete_topic_present (before after : table) (r : row) :
  primary_key (before ++ r :: after) ->
  delete_topic (before ++ r :: after) (user_id r) (topic_name r)
  = (true, before ++ after).
Proof.
  intros Hpk.
  assert (Hother : forall r', In r' (before ++ after) ->
                     owned_by (user_id r) (topic_name r) r' = false).
  { intros r' Hin. apply owned_by_false. intros [_ Hn].
    exact (primary_key_split _ _ _ Hpk r' Hin Hn). }
  assert (Hself : owned_by (user_id r) (topic_name r) r = true)
    by now apply owned_by_true.
  unfold delete_topic. rewrite !filter_app. simpl. rewrite Hself. simpl.
  rewrite !filter_none
    by (intros x Hx; apply Hother; apply in_or_app; auto).
  rewrite !filter_all
    by (intros x Hx; rewrite Hother; [reflexivity | apply in_or_app; auto]).
  reflexivity.
Qed.

Lemma add_topic_present (db : table) (name : pystr) (uid cid now : Z) :
  (exists r, In r db /\ topic_name r = name) ->
  add_topic db name uid cid now = (false, db).
Proof.
  unfold add_topic. intros (r & Hin & Hn).
  assert (E : existsb (has_name name) db = true).
  { apply existsb_exists. exists r. split; [easy | now apply has_name_true]. }
  now rewrite E.
Qed.

Lemma add_topic_absent (db : table) (name : pystr) (uid cid now : Z) :
  (forall r, In r db -> topic_name r <> name) ->
  add_topic db name uid cid now = (true, db ++ [mk_row name uid cid now]).
Proof.
  unfold add_topic. intros Hnone.
  destruct (existsb (has_name name) db) eqn:E; [| reflexivity].
  apply existsb_exists in E as (r & Hin & Hn).
  apply has_name_true in Hn. now destruct (Hnone r Hin).
Qed.

Lemma add_topic_true (db db' : table) (name : pystr) (uid cid now : Z) :
  add_topic db name uid cid now = (true, db') ->
  existsb (has_name name) db = false
  /\ db' = db ++ [mk_row name uid cid now].
Proof.
  unfold add_topic.
  destruct (existsb (has_name name) db); [discriminate |].
  now intros [= <-].
Qed.

(** C1.  [add_topic] inserts if absent: when a row with the name exists,
    whoever owns it, the call returns [False] and the table is unchanged;
    when none exists, it returns [True] and the table is the old one with
    the new row (name, user, chat) added. *)
Theorem add_topic_insert_if_absent
        (db : table) (name : pystr) (uid cid now : Z) :
  ((exists r, In r db /\ topic_name r = name) ->
   add_topic db name uid cid now = (false, db))
  /\ ((forall r, In r db -> topic_name r <> name) ->
      add_topic db name uid cid now = (true, db ++ [mk_row name uid cid now])).
Proof.
  split; [apply add_topic_present | apply add_topic_absent].
Qed.

(** Scenario 1 of the specification: the first registration of ["alerts-1"]
    succeeds, the second, by another user, fails and changes nothing. *)
Lemma add_topic_insert_if_absent_witness :
  add_topic init_database (py "alerts-1") 42 42 0
  = (true, [mk_row (py "alerts-1") 42 42 0])
  /\ add_topic [mk_row (py "alerts-1") 42 42 0] (py "alerts-1") 7 7 1
     = (false, [mk_row (py "alerts-1") 42 42 0]).
Proof.
  split.
  - apply (add_topic_insert_if_absent init_database (py "alerts-1") 42 42 0).
    intros r [].
  - apply (add_topic_insert_if_absent
             [mk_row (py "alerts-1") 42 42 0] (py "alerts-1") 7 7 1).
    exists (mk_row (py "alerts-1") 42 42 0). split; [now left | reflexivity].
Defined.

(** C2.  [delete_topic] is scoped by owner: on a table that satisfies its
    primary key, the call returns [True] exactly when a row with that user
    and that name exists, and then that row and no other is removed; a row
    with the name but another owner makes it return [False] and leaves the
    table as it was. *)
Theorem delete_topic_owner_scoped (db : table) (uid : Z) (name : pystr) :
  primary_key db ->
  (fst (delete_topic db uid name) = true
   <-> exists r, In r db /\ user_id r = uid /\ topic_name r = name)
  /\ (forall r, In r db -> user_id r = uid -> topic_name r = name ->
      exists before after,
        db = before ++ r :: after
        /\ delete_topic db uid name = (true, before ++ after))
  /\ (forall r, In r db -> topic_name r = name -> user_id r <> uid ->
      delete_topic db uid name = (false, db) /\ In r db).
Proof.
  intros Hpk.
  assert (Hpresent : forall r, In r db -> user_id r = uid -> topic_name r = name ->
            exists before after,
              db = before ++ r :: after
              /\ delete_topic db uid name = (true, before ++ after)).
  { intros r Hin <- <-. destruct (in_split _ _ Hin) as (before & after & ->).
    exists before, after. split; [reflexivity |]. now apply delete_topic_present. }
  split; [| split].
  - split.
    + intros Hok.
      destruct (existsb (owned_by uid name) db) eqn:E.
      * apply existsb_exists in E as (r & Hin & Ho).
        apply owned_by_true in Ho. now exists r.
      * rewrite delete_topic_absent in Hok; [discriminate |].
        intros r Hr. destruct (owned_by uid name r) eqn:Ho; [| reflexivity].
        assert (existsb (owned_by uid name) db = true)
          by (apply existsb_exists; now exists r).
        congruence.
    + intros (r & Hin & Hu & Hn).
      destruct (Hpresent r Hin Hu Hn) as (before & after & _ & ->). reflexivity.
  - exact Hpresent.
  - intros r Hin Hn Hu. split; [| assumption].
    apply delete_topic_absent. intros r' Hr'.
    apply owned_by_false. intros [Hu' Hn'].
    destruct (in_split _ _ Hin) as (before & after & ->).
    apply in_app_or in Hr'. destruct Hr' as [Hr' | [<- | Hr']].
    + apply (primary_key_split _ _ _ Hpk r'); [apply in_or_app; auto | congruence].
    + congruence.
    + apply (primary_key_split _ _ _ Hpk r'); [apply in_or_app; auto | congruence].
Qed.

(** Scenario 6 of the specification: user 7 cannot delete the topic of
    user 42, user 42 can, and the name is then unknown. *)
Lemma delete_topic_owner_scoped_witness :
  let db := [mk_row (py "alerts-1") 42 42 0] in
  primary_key db
  /\ delete_topic db 7 (py "alerts-1") = (false, db)
  /\ delete_topic db 42 (py "alerts-1") = (true, [])
  /\ get_topic (snd (delete_topic db 42 (py "alerts-1"))) (py "alerts-1") = None.
Proof.
  set (r := mk_row (py "alerts-1") 42 42 0).
  assert (Hpk : primary_key [r]).
  { repeat constructor. simpl. tauto. }
  split; [exact Hpk |].
  destruct (delete_topic_owner_scoped [r] 7 (py "alerts-1") Hpk)
    as (_ & _ & Hother).
  destruct (delete_topic_owner_scoped [r] 42 (py "alerts-1") Hpk)
    as (_ & Hown & _).
  split; [| split].
  - apply (Hother r); [now left | reflexivity | discriminate].
  - reflexivity.
  - reflexivity.
Defined.

End TopicDatabaseFacts.

(** ** Decoding bytes: nothing is lost entirely *)

(** Every byte sequence decodes, and only the empty one to the empty
    string. *)
Lemma utf8_decode_replace_nil (bs : pybytes) :
  utf8_decode_replace bs = [] <-> bs = [].
Proof.
  split; [| now intros ->].
  destruct bs as [| b1 r1]; [reflexivity |]. simpl.
  repeat match goal with
         | |- context [if ?b then _ else _] => destruct b
         | |- context [match ?l with [] => _ | _ :: _ => _ end] => destruct l
         end; discriminate.
Qed.

Lemma utf8_decode_replace_ascii (bs : pybytes) :
  Forall (fun b => b < 128) bs -> utf8_decode_replace bs = bs.
Proof.
  induction 1 as [| b bs Hb _ IH]; [reflexivity |].
  simpl. destruct (Z.ltb_spec b 128); [| lia]. now rewrite IH.
Qed.

(** ** [json.loads] never runs out of fuel

    A scanner makes progress on [s] when it fails or leaves a strictly
    shorter rest, and does not stop for lack of fuel. *)

Lemma skip_ws_length (s : pystr) : (length (skip_ws s) <= length s)%nat.
Proof.
  induction s as [| c s IH]; simpl; [lia |].
  destruct (is_whitespace c); simpl; lia.
Qed.

Lemma scanstring_progress_below (n : nat) :
  forall s acc, (length s <= n)%nat ->
  match scanstring s acc with
  | Parsed _ rest => (length rest < length s)%nat
  | DecodeError => True
  | Failed _ => False
  | NoFuel => False
  end.
Proof.
  induction n as [| n IH]; intros s acc Hlen.
  - destruct s; [exact I | simpl in Hlen; lia].
  - destruct s as [| c r]; [exact I |].
    simpl in Hlen. cbn [scanstring].
    destruct (c =? 34); [simpl; lia |].
    destruct (c =? 92).
    + destruct r as [| esc r1]; [exact I |].
      destruct (esc =? 117).
      * destruct r1 as [| h1 [| h2 [| h3 [| h4 r2]]]]; try exact I.
        destruct (decode_uXXXX h1 h2 h3 h4) as [uni |]; [| exact I].
        simpl in Hlen.
        assert (Hr2 : forall a,
                   match scanstring r2 a with
                   | Parsed _ rest =>
                     (length rest
                      < length (c :: esc :: h1 :: h2 :: h3 :: h4 :: r2))%nat
                   | DecodeError => True
                   | Failed _ => False
                   | NoFuel => False
                   end).
        { intros a. specialize (IH r2 a ltac:(lia)).
          destruct (scanstring r2 a); simpl in *; auto; lia. }
        destruct r2 as [| b [| u [| g1 [| g2 [| g3 [| g4 r3]]]]]];
          try apply Hr2.
        destruct (is_high_surrogate uni && (b =? 92) && (u =? 117));
          [| apply Hr2].
        destruct (decode_uXXXX g1 g2 g3 g4) as [uni2 |]; [| exact I].
        destruct (is_low_surrogate uni2); [| apply Hr2].
        simpl in Hlen.
        specialize (IH r3 (join_surrogates uni uni2 :: acc) ltac:(lia)).
        destruct (scanstring r3 _); simpl in *; auto; lia.
      * destruct (backslash_escape esc) as [ch |]; [| exact I].
        simpl in Hlen. specialize (IH r1 (ch :: acc) ltac:(lia)).
        destruct (scanstring r1 _); simpl in *; auto; lia.
    + destruct ((0 <=? c) && (c <? 32)); [exact I |].
      specialize (IH r (c :: acc) ltac:(lia)).
      destruct (scanstring r _); simpl in *; auto; lia.
Qed.

(** [scanstring] fails with an error of syntax or not at all. *)
Lemma scanstring_shorter (s acc : pystr) :
  match scanstring s acc with
  | Parsed _ rest => (length rest <= length s)%nat
  | DecodeError => True
  | Failed _ => False
  | NoFuel => False
  end.
Proof.
  pose proof (scanstring_progress_below (length s) s acc (le_n _)) as H.
  destruct (scanstring s acc); simpl in *; auto; lia.
Qed.

Lemma scanstring_progress (s acc : pystr) :
  progress (scanstring s acc) (34 :: s).
Proof.
  pose proof (scanstring_shorter s acc) as H.
  unfold progress. destruct (scanstring s acc); simpl in *; auto; lia.
Qed.

Lemma span_digits_length (s : pystr) :
  (length (snd (span_digits s)) <= length s)%nat.
Proof.
  induction s as [| c s IH]; simpl; [lia |].
  destruct (is_digit c); simpl; [| lia].
  destruct (span_digits s); simpl in *; lia.
Qed.

Lemma match_fraction_length (s ds rest : pystr) :
  match_fraction s = Some (ds, rest) -> (length rest <= length s)%nat.
Proof.
  unfold match_fraction. destruct s as [| dot [| d r]]; try discriminate.
  destruct ((dot =? 46) && is_digit d); [| discriminate].
  intros H. pose proof (span_digits_length (d :: r)) as L.
  replace (span_digits (d :: r)) with (ds, rest) in L by congruence.
  simpl in *. lia.
Qed.

Lemma match_exponent_length (s rest : pystr) (x : Z) :
  match_exponent s = Some (x, rest) -> (length rest <= length s)%nat.
Proof.
  unfold match_exponent. destruct s as [| e r]; [discriminate |].
  destruct ((e =? 101) || (e =? 69)); [| discriminate].
  set (p := match r with
            | [] => (false, r)
            | sg :: r' => if sg =? 45 then (true, r')
                          else if sg =? 43 then (false, r') else (false, r)
            end).
  assert (Hp : (length (snd p) <= length r)%nat).
  { subst p. destruct r as [| sg r']; simpl; [lia |].
    destruct (sg =? 45); [simpl; lia |]. destruct (sg =? 43); simpl; lia. }
  destruct p as [neg r1]. simpl in Hp.
  pose proof (span_digits_length r1) as L.
  destruct (span_digits r1) as [[| d ds] rest']; [discriminate |].
  intros H. injection H as _ <-. simpl in *. lia.
Qed.

Lemma strip_prefix_length (lit s rest : pystr) :
  strip_prefix lit s = Some rest ->
  (length rest + length lit = length s)%nat.
Proof.
  revert s. induction lit as [| a lit IH]; intros s; simpl.
  - intros H. injection H as <-. lia.
  - destruct s as [| c s]; [discriminate |].
    destruct (a =? c); [| discriminate].
    intros H. apply IH in H. simpl. lia.
Qed.

Lemma literal_progress (lit : string) (v : pyvalue) (s : pystr)
      (p : parse pyvalue) :
  py lit <> [] -> literal lit v s = Some p -> progress p s.
Proof.
  unfold literal. intros Hne.
  destruct (strip_prefix (py lit) s) as [rest |] eqn:E; [| discriminate].
  intros H. injection H as <-. apply strip_prefix_length in E. simpl.
  destruct (py lit); [congruence | simpl in E; lia].
Qed.

Section LoadsFacts.
Context {interp : Interpreter}.

Lemma syntax_error_progress (A : Type) (depth : nat) (s : pystr) :
  progress (@syntax_error _ A depth) s.
Proof. unfold syntax_error. now destruct (_ <=? _)%nat. Qed.

Lemma match_number_progress (s : pystr) : progress (match_number s) s.
Proof.
  unfold match_number.
  set (p := match s with
            | [] => (false, s)
            | c :: r => if c =? 45 then (true, r) else (false, s)
            end).
  assert (Hp : (length (snd p) <= length s)%nat).
  { subst p. destruct s as [| c r]; simpl; [lia |].
    destruct (c =? 45); simpl; lia. }
  destruct p as [neg s1]. simpl in Hp.
  destruct s1 as [| c r]; [exact I |].
  destruct (is_digit c) eqn:Hd; cbn [negb]; [| exact I].
  set (q := if c =? 48 then ([c], r) else span_digits (c :: r)).
  assert (Hq : (length (snd q) < length (c :: r))%nat).
  { subst q. destruct (c =? 48); [simpl; lia |].
    simpl. rewrite Hd. pose proof (span_digits_length r) as L.
    destruct (span_digits r); simpl in *; lia. }
  destruct q as [ints s2]. simpl in Hq.
  assert (H3 : (length (snd (match match_fraction s2 with
                                   | Some (ds, rest) => (Some ds, rest)
                                   | None => (None, s2)
                                   end)) <= length s2)%nat).
  { destruct (match_fraction s2) as [[ds rest] |] eqn:E; simpl; [| lia].
    eapply match_fraction_length; eassumption. }
  destruct (match match_fraction s2 with
            | Some (ds, rest) => (Some ds, rest)
            | None => (None, s2)
            end) as [frac s3]. simpl in H3.
  assert (H4 : (length (snd (match match_exponent s3 with
                                   | Some (x, rest) => (Some x, rest)
                                   | None => (None, s3)
                                   end)) <= length s3)%nat).
  { destruct (match_exponent s3) as [[x rest] |] eqn:E; simpl; [| lia].
    eapply match_exponent_length; eassumption. }
  destruct (match match_exponent s3 with
            | Some (x, rest) => (Some x, rest)
            | None => (None, s3)
            end) as [expo s4]. simpl in H4.
  simpl in Hp.
  destruct frac, expo; try (simpl; lia).
  destruct (exceeds_int_max_str_digits (length ints)); simpl; [exact I | lia].
Qed.

Lemma array_items_progress (scan : pystr -> parse pyvalue)
      (fuel depth : nat) :
  forall s acc, (length s < fuel)%nat -> progresses_upto scan s ->
  progress (array_items fuel depth scan s acc) s.
Proof.
  induction fuel as [| fuel IH]; intros s acc Hfuel Hscan; [lia |].
  cbn [array_items]. pose proof (Hscan s (le_n _)) as Hs.
  destruct (scan s) as [v r | | e |]; simpl in Hs;
    [| exact I | exact I | contradiction].
  pose proof (skip_ws_length r) as Lr.
  destruct (skip_ws r) as [| c r1]; [apply syntax_error_progress |].
  simpl in Lr.
  destruct (c =? 93); [simpl; lia |].
  destruct (c =? 44); [| apply syntax_error_progress].
  pose proof (skip_ws_length r1) as L1.
  assert (Hrec : progress (array_items fuel depth scan (skip_ws r1) (v :: acc))
                          (skip_ws r1)).
  { apply IH; [lia |]. intros s' Hs'. apply Hscan. lia. }
  destruct (array_items fuel depth scan (skip_ws r1) (v :: acc));
    simpl in *; auto; lia.
Qed.

Lemma object_items_progress (scan : pystr -> parse pyvalue)
      (fuel depth : nat) :
  forall s acc, (length s < fuel)%nat -> progresses_upto scan s ->
  progress (object_items fuel depth scan s acc) s.
Proof.
  induction fuel as [| fuel IH]; intros s acc Hfuel Hscan; [lia |].
  cbn [object_items]. destruct s as [| q r]; [apply syntax_error_progress |].
  destruct (negb (q =? 34)); [apply syntax_error_progress |].
  pose proof (scanstring_shorter r []) as Hk.
  destruct (scanstring r []) as [key r1 | | e |]; simpl in Hk;
    [| apply syntax_error_progress | contradiction | contradiction].
  pose proof (skip_ws_length r1) as L1.
  destruct (skip_ws r1) as [| colon r2]; [apply syntax_error_progress |].
  simpl in L1.
  destruct (negb (colon =? 58)); [apply syntax_error_progress |].
  pose proof (skip_ws_length r2) as L2.
  assert (Hv : progress (scan (skip_ws r2)) (skip_ws r2)).
  { apply Hscan. simpl. lia. }
  destruct (scan (skip_ws r2)) as [v r3 | | e |]; simpl in Hv;
    [| exact I | exact I | contradiction].
  pose proof (skip_ws_length r3) as L3.
  destruct (skip_ws r3) as [| c r4]; [apply syntax_error_progress |].
  simpl in L3.
  destruct (c =? 125); [simpl; lia |].
  destruct (c =? 44); [| apply syntax_error_progress].
  pose proof (skip_ws_length r4) as L4.
  assert (Hrec : progress (object_items fuel depth scan (skip_ws r4)
                             (dict_set acc key v)) (skip_ws r4)).
  { apply IH; [simpl in Hfuel; lia |]. intros s' Hs'. apply Hscan. simpl. lia. }
  destruct (object_items fuel depth scan (skip_ws r4) (dict_set acc key v));
    simpl in *; auto; lia.
Qed.

(** With more fuel than characters, [scan_once] fails or returns a value
    and a shorter rest. *)
Lemma scan_once_progress (fuel : nat) :
  forall depth s, (length s < fuel)%nat ->
  progress (scan_once fuel depth s) s.
Proof.
  induction fuel as [| fuel IH]; intros depth s Hfuel; [lia |].
  cbn [scan_once]. destruct s as [| c r]; [exact I |]. simpl in Hfuel.
  assert (Hsub : forall d s1, (length s1 <= length r)%nat ->
                   progresses_upto (scan_once fuel d) s1).
  { intros d s1 H1 s' Hs'. apply IH. lia. }
  destruct (c =? 34).
  { pose proof (scanstring_shorter r []) as Hk.
    destruct (scanstring r []);
      [simpl in *; lia | apply syntax_error_progress | exact I
       | contradiction]. }
  destruct (c =? 123).
  { destruct (max_nesting <=? depth)%nat; [exact I |].
    pose proof (skip_ws_length r) as L.
    destruct (skip_ws r) as [| c1 r1]; [apply syntax_error_progress |].
    destruct (c1 =? 125); [simpl in *; lia |].
    pose proof (object_items_progress (scan_once fuel (S depth)) fuel
                  (S depth) (c1 :: r1) []
                  ltac:(simpl in *; lia) (Hsub _ _ L)) as Ho.
    destruct (object_items fuel (S depth) (scan_once fuel (S depth))
                           (c1 :: r1) []);
      simpl in *; auto; lia. }
  destruct (c =? 91).
  { destruct (max_nesting <=? depth)%nat; [exact I |].
    pose proof (skip_ws_length r) as L.
    destruct (skip_ws r) as [| c1 r1]; [exact I |].
    destruct (c1 =? 93); [simpl in *; lia |].
    pose proof (array_items_progress (scan_once fuel (S depth)) fuel
                  (S depth) (c1 :: r1) []
                  ltac:(simpl in *; lia) (Hsub _ _ L)) as Ha.
    destruct (array_items fuel (S depth) (scan_once fuel (S depth))
                          (c1 :: r1) []);
      simpl in *; auto; lia. }
  repeat match goal with
         | |- progress (match literal ?l ?v ?t with _ => _ end) _ =>
           let E := fresh "E" in
           destruct (literal l v t) eqn:E;
           [ apply (literal_progress l v t); [discriminate | exact E] | ]
         end.
  apply match_number_progress.
Qed.

(** [json.loads] is total: the fuel it gives [scan_once] is never used up. *)
Lemma scan_once_fuel (s : pystr) :
  scan_once (S (length s)) 0 (skip_ws s) <> NoFuel.
Proof.
  pose proof (scan_once_progress (S (length s)) 0%nat (skip_ws s)) as H.
  pose proof (skip_ws_length s) as L.
  intros E. rewrite E in H. apply H. lia.
Qed.

(** One opening bracket more than there is room for: the scanner stops at
    the last one, before it looks for the end of the text. *)
Lemma scan_once_too_deep (k : nat) :
  forall fuel depth, (depth + k = max_nesting)%nat -> (k < fuel)%nat ->
  scan_once fuel depth (repeat 91 (S k)) = Failed TooDeep.
Proof.
  induction k as [| k IH]; intros fuel depth Hd Hf.
  - destruct fuel as [| fuel]; [lia |].
    change (repeat 91 1) with [91].
    cbn [scan_once]. change (91 =? 34) with false.
    change (91 =? 123) with false. change (91 =? 91) with true. cbv iota.
    rewrite (proj2 (Nat.leb_le _ _)) by lia. reflexivity.
  - destruct fuel as [| fuel]; [lia |].
    change (repeat 91 (S (S k))) with (91 :: repeat 91 (S k)).
    cbn [scan_once]. change (91 =? 34) with false.
    change (91 =? 123) with false. change (91 =? 91) with true. cbv iota.
    rewrite (proj2 (Nat.leb_gt _ _)) by lia.
    change (skip_ws (repeat 91 (S k))) with (91 :: repeat 91 k).
    change (91 =? 93) with false. cbv iota.
    destruct fuel as [| fuel]; [lia |]. cbn [array_items].
    change (91 :: repeat 91 k) with (repeat 91 (S k)).
    rewrite IH by lia. reflexivity.
Qed.

Lemma json_loads_too_deep :
  json_loads (repeat 91 (S max_nesting)) = RecursionError.
Proof.
  unfold json_loads.
  change (repeat 91 (S max_nesting)) with (91 :: repeat 91 max_nesting) at 1.
  cbv iota.
  change (skip_ws (repeat 91 (S max_nesting)))
    with (repeat 91 (S max_nesting)).
  rewrite (scan_once_too_deep max_nesting); [reflexivity | lia |].
  rewrite repeat_length. lia.
Qed.

(** A text that opens with a brace and an apostrophe, as the [repr] of a
    [dict] does, is refused at the apostrophe. *)
Lemma json_loads_brace_apostrophe (s : pystr) :
  json_loads (123 :: 39 :: s) = JSONDecodeError.
Proof. reflexivity. Qed.

End LoadsFacts.

(** ** The text [json.dumps] writes

    With [ensure_ascii] left on, the output holds printable ASCII and, for
    the indentation, newlines: nothing else. *)

Lemma json_text_app (a b : pystr) :
  json_text a -> json_text b -> json_text (a ++ b).
Proof.
  unfold json_text. intros Ha Hb. now rewrite forallb_app, Ha, Hb.
Qed.

Lemma json_text_cons (c : Z) (s : pystr) :
  json_text_char c = true -> json_text s -> json_text (c :: s).
Proof. unfold json_text. simpl. now intros -> ->. Qed.

Lemma json_text_flat_map (f : Z -> pystr) (s : pystr) :
  (forall c, json_text (f c)) -> json_text (flat_map f s).
Proof.
  intros Hf. induction s as [| c s IH]; [reflexivity |].
  simpl. now apply json_text_app.
Qed.

Lemma json_text_join (sep : pystr) (parts : list pystr) :
  json_text sep -> Forall json_text parts -> json_text (join sep parts).
Proof.
  intros Hsep Hparts. induction Hparts as [| p ps Hp Hps IH]; [reflexivity |].
  destruct ps as [| q ps]; [exact Hp |].
  change (join sep (p :: q :: ps)) with (p ++ sep ++ join sep (q :: ps)).
  auto using json_text_app.
Qed.

Lemma json_text_repeat (c : Z) (n : nat) :
  json_text_char c = true -> json_text (repeat c n).
Proof.
  intros Hc. induction n as [| n IH]; [reflexivity |].
  simpl. now apply json_text_cons.
Qed.

Lemma json_text_firstn (n : nat) (s : pystr) :
  json_text s -> json_text (firstn n s).
Proof.
  unfold json_text. revert s. induction n as [| n IH]; intros [| c s];
    simpl; try reflexivity.
  rewrite !andb_true_iff. intros [-> H]. auto.
Qed.

Lemma json_text_skipn (n : nat) (s : pystr) :
  json_text s -> json_text (skipn n s).
Proof.
  unfold json_text. revert s. induction n as [| n IH]; intros [| c s];
    simpl; try easy.
  rewrite andb_true_iff. intros [_ H]. auto.
Qed.

Create HintDb json_text.

#[local] Hint Resolve json_text_app json_text_cons json_text_repeat
  json_text_firstn json_text_skipn : json_text.

Lemma uint_chars_text (u : Decimal.uint) : json_text (uint_chars u).
Proof. induction u; simpl; auto with json_text; reflexivity. Qed.

Lemma nat_digits_text (z : Z) : json_text (nat_digits z).
Proof. apply uint_chars_text. Qed.

Lemma int_repr_text (z : Z) : json_text (int_repr z).
Proof.
  unfold int_repr. destruct (z <? 0); auto using nat_digits_text with json_text.
Qed.

Lemma json_text_char_range (c : Z) :
  32 <= c <= 126 -> json_text_char c = true.
Proof.
  intros H. unfold json_text_char.
  replace (32 <=? c) with true by (symmetry; apply Z.leb_le; lia).
  replace (c <=? 126) with true by (symmetry; apply Z.leb_le; lia).
  reflexivity.
Qed.

Lemma hex_char_text (n : Z) : json_text_char (hex_char (Z.land n 15)) = true.
Proof.
  change 15 with (Z.ones 4). rewrite Z.land_ones by lia.
  pose proof (Z.mod_pos_bound n (2 ^ 4) ltac:(lia)) as H.
  change (2 ^ 4) with 16 in *.
  apply json_text_char_range. unfold hex_char.
  destruct (Z.ltb_spec (n mod 16) 10); lia.
Qed.

Lemma hex_digits_text (width : nat) :
  forall n, json_text (hex_digits width n).
Proof.
  induction width as [| w IH]; intros n; [reflexivity |].
  simpl. apply json_text_app; [apply IH |].
  apply json_text_cons; [apply hex_char_text | reflexivity].
Qed.

Lemma json_escape_char_text (c : Z) : json_text (json_escape_char c).
Proof.
  unfold json_escape_char.
  repeat match goal with
         | |- json_text (if ?b then _ else _) => destruct b eqn:?
         end; try reflexivity.
  - apply json_text_cons; [| reflexivity].
    match goal with
    | H : (32 <=? c) && (c <=? 126) = true |- _ =>
      apply andb_true_iff in H as [H1 H2]
    end.
    apply json_text_char_range. apply Z.leb_le in H1, H2. lia.
  - repeat (apply json_text_cons; [reflexivity |]). apply hex_digits_text.
  - apply json_text_app;
      repeat (apply json_text_cons; [reflexivity |]); apply hex_digits_text.
Qed.

Lemma encode_basestring_ascii_text (s : pystr) :
  json_text (encode_basestring_ascii s).
Proof.
  unfold encode_basestring_ascii.
  apply json_text_cons; [reflexivity |].
  apply json_text_app; [| reflexivity].
  apply json_text_flat_map, json_escape_char_text.
Qed.

Lemma exponent_text_text (x : Z) : json_text (exponent_text x).
Proof.
  unfold exponent_text.
  apply json_text_cons; [reflexivity |].
  apply json_text_cons; [now destruct (x <? 0) |].
  destruct (Z.abs x <? 10); auto using nat_digits_text with json_text.
Qed.

Lemma finite_repr_text (neg : bool) (m e : Z) : json_text (finite_repr neg m e).
Proof.
  unfold finite_repr.
  assert (Hsign : json_text (if neg then [45] else [])) by now destruct neg.
  destruct (m =? 0); [now apply json_text_app |].
  destruct (scale2 m 1 (- e)) as [num den].
  destruct (shortest_digits _ _ _ _ _ _) as [d0 k0].
  destruct (strip_zeros _ _ _) as [d k].
  pose proof (nat_digits_text d) as Hd.
  apply json_text_app; [exact Hsign |].
  destruct ((_ <=? -4) || _).
  - destruct (nat_digits d) as [| d1 [| d2 rest]]; [reflexivity | |].
    + apply json_text_cons; [| apply exponent_text_text].
      unfold json_text in Hd. simpl in Hd. now apply andb_true_iff in Hd.
    + unfold json_text in Hd. simpl in Hd.
      apply andb_true_iff in Hd as [H1 Hd].
      apply json_text_cons; [exact H1 |].
      apply json_text_cons; [reflexivity |].
      apply json_text_app; [exact Hd | apply exponent_text_text].
  - destruct (_ <=? 0).
    + repeat (apply json_text_cons; [reflexivity |]).
      apply json_text_app; [now apply json_text_repeat | exact Hd].
    + destruct (_ <? _).
      * apply json_text_app; [now apply json_text_firstn |].
        apply json_text_cons; [reflexivity | now apply json_text_skipn].
      * apply json_text_app; [exact Hd |].
        apply json_text_app; [now apply json_text_repeat | reflexivity].
Qed.

Lemma floatstr_text (f : pyfloat) : json_text (floatstr f).
Proof.
  destruct f as [| [|] | neg m e]; try reflexivity. apply finite_repr_text.
Qed.

Lemma newline_indent_text (level : nat) : json_text (newline_indent level).
Proof.
  unfold newline_indent. apply json_text_cons; [reflexivity |].
  now apply json_text_repeat.
Qed.

Lemma iterencode_text (v : pyvalue) :
  forall level, json_text (iterencode level v).
Proof.
  induction v as [| [|] | z | f | s | l IH | d IH] using pyvalue_ind;
    intros level; try reflexivity.
  - apply int_repr_text.
  - apply floatstr_text.
  - apply encode_basestring_ascii_text.
  - destruct l as [| x l]; [reflexivity |].
    cbn [iterencode].
    apply json_text_cons; [reflexivity |].
    apply json_text_app; [apply newline_indent_text |].
    apply json_text_app;
      [| apply json_text_app; [apply newline_indent_text | reflexivity]].
    apply json_text_join.
    + apply json_text_cons; [reflexivity | apply newline_indent_text].
    + apply Forall_map. revert IH. apply Forall_impl. auto.
  - destruct d as [| kv d]; [reflexivity |].
    cbn [iterencode].
    apply json_text_cons; [reflexivity |].
    apply json_text_app; [apply newline_indent_text |].
    apply json_text_app;
      [| apply json_text_app; [apply newline_indent_text | reflexivity]].
    apply json_text_join.
    + apply json_text_cons; [reflexivity | apply newline_indent_text].
    + apply Forall_map. revert IH. apply Forall_impl.
      intros a Ha. apply json_text_app; [apply encode_basestring_ascii_text |].
      apply json_text_app; [reflexivity | apply Ha].
Qed.

(** What [json.dumps] returns holds no control character but the newline,
    and no character beyond ASCII. *)
Lemma json_dumps_text (v : pyvalue) : json_text (json_dumps v).
Proof. apply iterencode_text. Qed.

Lemma code_block_text (payload : pystr) :
  json_text payload -> json_text (code_block payload).
Proof.
  intros H. unfold code_block.
  repeat (apply json_text_app; [try reflexivity; try exact H |]).
  reflexivity.
Qed.

(** ** Normalisation of the message *)

Lemma keep_char_not_stripped (c : Z) : keep_char c = negb (is_stripped c).
Proof.
  unfold keep_char, is_stripped.
  destruct (Z.leb_spec 32 c), (Z.ltb_spec c 32); try lia;
    destruct (c =? 10), (c =? 13), (c =? 9); reflexivity.
Qed.

(** Iterating over a string and keeping what line 313 keeps is
    [strip_controls]. *)
Lemma clean_message_str (s : pystr) :
  clean_message (map (fun c => PStr [c]) s) = Return (strip_controls s).
Proof.
  induction s as [| c s IH]; [reflexivity |].
  simpl. rewrite IH. simpl. now rewrite keep_char_not_stripped.
Qed.

Lemma str_replace_app (old : Z) (new a b : pystr) :
  str_replace old new (a ++ b) = str_replace old new a ++ str_replace old new b.
Proof. apply flat_map_app. Qed.

Lemma escape_markdown_cons (c : Z) (s : pystr) :
  escape_markdown (c :: s)
  = (if markdown_special c then [92; c] else [c]) ++ escape_markdown s.
Proof.
  unfold escape_markdown, markdown_special.
  change (str_replace 95 [92; 95] (c :: s))
    with ((if c =? 95 then [92; 95] else [c]) ++ str_replace 95 [92; 95] s).
  rewrite !str_replace_app.
  destruct (Z.eqb_spec c 95) as [-> | H95]; [reflexivity |].
  destruct (Z.eqb_spec c 42) as [-> | H42]; [reflexivity |].
  destruct (Z.eqb_spec c 91) as [-> | H91]; [reflexivity |].
  destruct (Z.eqb_spec c 93) as [-> | H93]; [reflexivity |].
  destruct (Z.eqb_spec c 96) as [-> | H96]; [reflexivity |].
  unfold str_replace. simpl.
  repeat match goal with
         | |- context [?x =? ?y] =>
           destruct (Z.eqb_spec x y); [congruence |]; simpl
         end.
  reflexivity.
Qed.

(** The five replacements of line 314 escape each special character once. *)
Lemma escape_markdown_each (s : pystr) : escape_markdown s = escape_each s.
Proof.
  induction s as [| c s IH]; [reflexivity |].
  rewrite escape_markdown_cons, IH. reflexivity.
Qed.


Lemma escape_each_plain (s : pystr) :
  (forall c, In c s -> markdown_special c = false) -> escape_each s = s.
Proof.
  induction s as [| c s IH]; intros H; [reflexivity |].
  simpl. rewrite (H c) by now left. simpl. f_equal.
  apply IH. intros x Hx. apply H. now right.
Qed.

Lemma strip_controls_text (s : pystr) : json_text s -> strip_controls s = s.
Proof.
  unfold json_text, strip_controls. induction s as [| c s IH]; [reflexivity |].
  simpl. rewrite andb_true_iff. intros [Hc Hs].
  assert (E : is_stripped c = false).
  { unfold json_text_char in Hc. unfold is_stripped.
    destruct (Z.ltb_spec c 32); [| reflexivity].
    destruct (Z.leb_spec 32 c); [lia |]. simpl in Hc. rewrite Hc.
    now rewrite orb_true_r. }
  rewrite E. simpl. f_equal. now apply IH.
Qed.

(** A text that starts with a backtick is not JSON. *)
Lemma json_loads_backtick {interp : Interpreter} (s : pystr) :
  json_loads (96 :: s) = JSONDecodeError.
Proof. reflexivity. Qed.

Lemma json_loads_nil {interp : Interpreter} : json_loads [] = JSONDecodeError.
Proof. reflexivity. Qed.

(** ** The handler *)

Lemma dict_get_find (d : pydict) (k : pystr) (default : pyvalue) :
  dict_get d k default
  = match dict_find d k with Some v => v | None => default end.
Proof.
  induction d as [| [k' v'] d IH]; [reflexivity |].
  simpl. now destruct (pystr_eqb k' k).
Qed.

Section HandlerFacts.
Context {interp : Interpreter}.

(** On a string that is not JSON, lines 300-314 strip and escape. *)
Lemma format_message_free_text (s : pystr) :
  json_loads s = JSONDecodeError ->
  format_message (PStr s) = Return (escape_each (strip_controls s)).
Proof.
  intros H. unfold format_message, try_json. rewrite H. simpl.
  rewrite clean_message_str. simpl. now rewrite escape_markdown_each.
Qed.


(** The failures that line 309 does not catch leave the handler's [try]
    body. *)
Lemma format_message_not_caught (s : pystr) :
  json_loads s = ValueError \/ json_loads s = RecursionError
  \/ (exists v, json_loads s = Loaded v /\ dumps_raises v = true) ->
  format_message (PStr s) = Raise.
Proof.
  unfold format_message, try_json.
  intros [-> | [-> | (v & -> & ->)]]; reflexivity.
Qed.

(** A message that is formatted has a length: the log line before the
    formatting does not raise. *)
Lemma log_and_format_return (message : pyvalue) (formatted : pystr) :
  format_message message = Return formatted ->
  log_and_format message = Return formatted.
Proof.
  unfold log_and_format. now destruct message.
Qed.

(** C4.  A POST for a name that is not in the table is answered 404 "Topic
    not found": the lookup is all the handler does, the body is not read and
    Telegram is not called, so the answer is the same for every body.  In
    every request the lookup comes first. *)
Theorem unknown_topic_404
        (db : TopicDatabase.table) (post : Z -> pystr -> backend)
        (topic_name content_type : pystr) (raw_body : pybytes) :
  (TopicDatabase.get_topic db topic_name = None ->
   webhook_handler db post topic_name content_type raw_body
   = (mk_response 404 (py "Topic not found"), [GetTopic topic_name]))
  /\ exists rest,
      snd (webhook_handler db post topic_name content_type raw_body)
      = GetTopic topic_name :: rest.
Proof.
  unfold webhook_handler. split.
  - now intros ->.
  - destruct (TopicDatabase.get_topic db topic_name); [| now eexists].
    destruct (read_message content_type raw_body) as [m |]; [| now eexists].
    destruct (negb (truthy m)); [now eexists |].
    destruct (log_and_format m) as [f |]; [| now eexists].
    destruct (post _ _) as [code |]; [destruct (code =? 200) |]; now eexists.
Qed.

(** C5.  When the message is empty (falsy), the handler answers 400 "No
    message provided" and does not call Telegram. *)
Theorem empty_message_400
        (db : TopicDatabase.table) (post : Z -> pystr -> backend)
        (topic_name content_type : pystr) (raw_body : pybytes)
        (topic_info : TopicDatabase.row) (message : pyvalue) :
  TopicDatabase.get_topic db topic_name = Some topic_info ->
  read_message content_type raw_body = Return message ->
  truthy message = false ->
  webhook_handler db post topic_name content_type raw_body
  = (mk_response 400 (py "No message provided"),
     [GetTopic topic_name; ReadBody])
  /\ backend_calls
       (snd (webhook_handler db post topic_name content_type raw_body)) = 0%nat.
Proof.
  intros Ht Hm Hf. unfold webhook_handler. rewrite Ht, Hm, Hf. now split.
Qed.

(** X2.  At most one call to Telegram in any request. *)
Lemma at_most_one_backend_call
      (db : TopicDatabase.table) (post : Z -> pystr -> backend)
      (topic_name content_type : pystr) (raw_body : pybytes) :
  (backend_calls
     (snd (webhook_handler db post topic_name content_type raw_body)) <= 1)%nat.
Proof.
  unfold webhook_handler, backend_calls.
  destruct (TopicDatabase.get_topic db topic_name); [| simpl; lia].
  destruct (read_message content_type raw_body) as [m |]; [| simpl; lia].
  destruct (negb (truthy m)); [simpl; lia |].
  destruct (log_and_format m) as [f |]; [| simpl; lia].
  destruct (post _ _) as [code |]; [destruct (code =? 200) |]; simpl; lia.
Qed.

(** C6, as the code has it.  Once a message is formatted, Telegram is
    called exactly once, with the chat of the topic and the notification
    text; status 200, and no other, is answered 200 "Notification sent"; any
    other status, the other 2xx included, is answered 500 "Failed to send
    notification"; a transport error is answered 500 "Internal server
    error".  Nothing is retried: no request calls Telegram twice. *)
Theorem backend_outcome_mapping
        (db : TopicDatabase.table) (post : Z -> pystr -> backend)
        (topic_name content_type : pystr) (raw_body : pybytes)
        (topic_info : TopicDatabase.row) (message : pyvalue)
        (formatted_message : pystr) :
  TopicDatabase.get_topic db topic_name = Some topic_info ->
  read_message content_type raw_body = Return message ->
  truthy message = true ->
  format_message message = Return formatted_message ->
  let chat := TopicDatabase.chat_id topic_info in
  let text := notification_text topic_name formatted_message in
  let result := webhook_handler db post topic_name content_type raw_body in
  snd result = [GetTopic topic_name; ReadBody; SendMessage chat text]
  /\ backend_calls (snd result) = 1%nat
  /\ (post chat text = Replied 200 ->
      fst result = mk_response 200 (py "Notification sent"))
  /\ (forall code, code <> 200 -> post chat text = Replied code ->
      fst result = mk_response 500 (py "Failed to send notification"))
  /\ (post chat text = ClientError -> fst result = internal_server_error).
Proof.
  intros Ht Hm Hf Hfmt chat text result.
  subst result. unfold webhook_handler.
  rewrite Ht, Hm, Hf, (log_and_format_return _ _ Hfmt). simpl.
  fold chat. fold text.
  split; [now destruct (post chat text) as [code |]; [destruct (code =? 200) |]
         |].
  split; [now destruct (post chat text) as [code |]; [destruct (code =? 200) |]
         |].
  split; [| split].
  - now intros ->.
  - intros code Hne ->. simpl.
    destruct (Z.eqb_spec code 200); [contradiction | reflexivity].
  - now intros ->.
Qed.

End HandlerFacts.

(** ** Normalisation, as the handler runs it *)

Lemma truthy_str (s : pystr) : truthy (PStr s) = false <-> s = [].
Proof. destruct s; simpl; split; congruence. Qed.





Lemma clean_message_kept (items : list pyvalue) (clean : pystr) :
  clean_message items = Return clean -> forallb keep_char clean = true.
Proof.
  revert clean. induction items as [| x items IH]; intros clean; simpl.
  - now intros [= <-].
  - destruct x as [| | | | [| c [| ? ?]] | |]; try discriminate.
    destruct (clean_message items) as [tail |]; [| discriminate].
    simpl. intros [= <-]. specialize (IH tail eq_refl).
    destruct (keep_char c) eqn:E; simpl; [now rewrite E |]; exact IH.
Qed.

Lemma escape_each_kept (s : pystr) :
  forallb keep_char s = true -> forallb keep_char (escape_each s) = true.
Proof.
  induction s as [| c s IH]; [reflexivity |].
  simpl. rewrite andb_true_iff. intros [Hc Hs].
  rewrite forallb_app, (IH Hs), andb_true_r.
  destruct (markdown_special c); simpl; now rewrite Hc.
Qed.

Lemma json_text_kept (s : pystr) : json_text s -> forallb keep_char s = true.
Proof.
  unfold json_text. induction s as [| c s IH]; [reflexivity |].
  simpl. rewrite !andb_true_iff. intros [Hc Hs]. split; [| now apply IH].
  unfold json_text_char in Hc. unfold keep_char.
  destruct (Z.leb_spec 32 c); [reflexivity |]. simpl in *.
  now rewrite Hc.
Qed.

Lemma keep_char_spec (c : Z) :
  keep_char c = true <-> 32 <= c \/ c = 9 \/ c = 10 \/ c = 13.
Proof.
  unfold keep_char.
  destruct (Z.leb_spec 32 c), (Z.eqb_spec c 10), (Z.eqb_spec c 13),
    (Z.eqb_spec c 9); simpl; split; intros; try congruence; try lia.
Qed.

Section NormalisationFacts.
Context {interp : Interpreter}.

Lemma read_message_other (content_type : pystr) (raw_body : pybytes) :
  content_type <> application_json ->
  read_message content_type raw_body
  = Return (PStr (utf8_decode_replace raw_body)).
Proof.
  intros H. unfold read_message.
  apply pystr_eqb_neq in H. now rewrite H.
Qed.

Lemma read_message_json (raw_body : pybytes) :
  read_message application_json raw_body
  = match json_loads (clean_raw_body raw_body) with
    | Loaded (PDict d) =>
      if str_raises (PDict d) then Raise
      else Return (dict_get d (py "message") (PStr (py_repr (PDict d))))
    | Loaded _ => Raise
    | JSONDecodeError => Return (PStr (utf8_decode_replace raw_body))
    | ValueError => Raise
    | RecursionError => Raise
    end.
Proof.
  unfold read_message. rewrite pystr_eqb_refl.
  destruct (json_loads (clean_raw_body raw_body)) as [[]| | |]; reflexivity.
Qed.

(** The handler answers 400 exactly when the message is there and falsy. *)
Lemma status_400
      (db : TopicDatabase.table) (post : Z -> pystr -> backend)
      (topic_name content_type : pystr) (raw_body : pybytes)
      (topic_info : TopicDatabase.row) :
  TopicDatabase.get_topic db topic_name = Some topic_info ->
  status (fst (webhook_handler db post topic_name content_type raw_body)) = 400
  <-> exists message,
      read_message content_type raw_body = Return message
      /\ truthy message = false.
Proof.
  intros Ht. unfold webhook_handler. rewrite Ht.
  destruct (read_message content_type raw_body) as [m |].
  - destruct (truthy m) eqn:Hm; simpl.
    + split.
      * destruct (log_and_format m) as [f |]; [| discriminate].
        destruct (post _ _) as [code |]; [destruct (code =? 200) |];
          discriminate.
      * intros (m' & [= <-] & Hf). congruence.
    + split; [| reflexivity]. intros _. now exists m.
  - simpl. split; [discriminate |]. intros (m' & Hm & _). discriminate.
Qed.

(** X1.  The formatted message holds no control character other than tab,
    newline and carriage return, whatever the message was. *)
Lemma format_message_control_safe (message : pyvalue) (formatted : pystr) :
  format_message message = Return formatted ->
  Forall (fun c => 32 <= c \/ c = 9 \/ c = 10 \/ c = 13) formatted.
Proof.
  intros H.
  assert (K : forallb keep_char formatted = true).
  { unfold format_message in H. destruct (try_json message) eqn:Ht.
    - injection H as <-. unfold try_json in Ht.
      destruct message as [| | | | s | |]; try discriminate.
      + destruct (json_loads s) as [v | | |]; try discriminate.
        destruct (dumps_raises v); [discriminate |].
        injection Ht as <-.
        apply json_text_kept, code_block_text, json_dumps_text.
      + destruct slice_hashable; discriminate.
    - destruct (py_iter message) as [items |]; [| discriminate]. simpl in H.
      destruct (clean_message items) as [clean |] eqn:Hc; [| discriminate].
      simpl in H. injection H as <-. rewrite escape_markdown_each.
      apply escape_each_kept. eapply clean_message_kept; eassumption.
    - discriminate. }
  apply Forall_forall. intros c Hc. apply keep_char_spec.
  rewrite forallb_forall in K. now apply K.
Qed.



(** C9, as the code has it.  For a content type other than
    [application/json] the handler answers 400 exactly when the body is
    empty, and a body that is not empty gives a message that is not empty.
    Under [application/json] it answers 400 when the body is empty, and also
    when the cleaned body is a JSON object whose ["message"] is falsy; in no
    other case.  In particular a cleaned body on which [json.loads] raises
    something other than [JSONDecodeError] is answered 500, whatever its
    ["message"] would have been. *)
Theorem empty_condition
        (db : TopicDatabase.table) (post : Z -> pystr -> backend)
        (topic_name content_type : pystr) (raw_body : pybytes)
        (topic_info : TopicDatabase.row) :
  TopicDatabase.get_topic db topic_name = Some topic_info ->
  let result := webhook_handler db post topic_name content_type raw_body in
  let answer := fst result in
  (content_type <> application_json ->
   (status answer = 400 <-> raw_body = [])
   /\ (raw_body <> [] ->
       exists message, message <> []
         /\ read_message content_type raw_body = Return (PStr message)))
  /\ (content_type = application_json ->
      (status answer = 400 <->
       raw_body = []
       \/ exists d v,
           json_loads (clean_raw_body raw_body) = Loaded (PDict d)
           /\ str_raises (PDict d) = false
           /\ dict_find d (py "message") = Some v
           /\ truthy v = false)
      /\ (json_loads (clean_raw_body raw_body) = ValueError
          \/ json_loads (clean_raw_body raw_body) = RecursionError ->
          result = (internal_server_error, [GetTopic topic_name; ReadBody]))).
Proof.
  intros Ht result answer. subst answer result.
  rewrite (status_400 _ _ _ _ _ _ Ht). split.
  - intros Hct. rewrite (read_message_other _ _ Hct). split.
    + split.
      * intros (m & [= <-] & Hf).
        now apply utf8_decode_replace_nil, truthy_str.
      * intros ->. now eexists.
    + intros Hne. exists (utf8_decode_replace raw_body). split; [| reflexivity].
      now rewrite utf8_decode_replace_nil.
  - intros ->. split.
    2: { intros Hl. unfold webhook_handler.
         rewrite Ht, read_message_json. now destruct Hl as [-> | ->]. }
    rewrite read_message_json.
    destruct (json_loads (clean_raw_body raw_body)) as [data | | |] eqn:Hl.
    + assert (Hne : raw_body <> []).
      { intros ->. discriminate. }
      destruct data as [| | | | | | d];
        try (split;
             [ intros (m & Hm & _); discriminate
             | intros [-> | (d & v & Hd & _)]; [congruence | discriminate] ]).
      destruct (str_raises (PDict d)) eqn:Hs.
      * split; [intros (m & Hm & _); discriminate |].
        intros [-> | (d' & v & [= <-] & Hs' & _)]; congruence.
      * rewrite dict_get_find. split.
        -- intros (m & [= <-] & Hf). right.
           destruct (dict_find d (py "message")) as [v |] eqn:Hfind;
             [| discriminate].
           now exists d, v.
        -- intros [-> | (d' & v & [= <-] & _ & Hfind & Hf)]; [congruence |].
           rewrite Hfind. now exists v.
    + split.
      * intros (m & [= <-] & Hf). left.
        now apply utf8_decode_replace_nil, truthy_str.
      * intros [-> | (d & v & Hd & _)]; [now eexists | discriminate].
    + split; [intros (m & Hm & _); discriminate |].
      intros [-> | (d & v & Hd & _)]; discriminate.
    + split; [intros (m & Hm & _); discriminate |].
      intros [-> | (d & v & Hd & _)]; discriminate.
Qed.


End NormalisationFacts.

(** ** The scenarios, run *)

(** C3.  Normalisation is not total: a body that is JSON but not an object,
    such as [[1]], sent as [application/json], makes [data.get] raise
    [AttributeError]; the handler's last [except] turns it into 500 "Internal
    server error" and Telegram is not called.  The same body sent as text is
    delivered, as a code block. *)
Theorem json_array_body_raises :
  every_interpreter (fun interp =>
    read_message application_json (py "[1]") = Raise
    /\ webhook_handler alerts_db (answering 200) (py "alerts-1")
         application_json (py "[1]")
       = (internal_server_error, alerts_trace)
    /\ webhook_handler alerts_db (answering 200) (py "alerts-1")
         (py "text/plain") (py "[1]")
       = (mk_response 200 (py "Notification sent"),
          alerts_sent (code_block (py "[" ++ [10] ++ py "  1" ++ [10] ++ py "]")))).
Proof. intros interp. repeat split. Qed.

(** Scenario 3: a POST to an unknown topic. *)
Lemma unknown_topic_404_witness :
  every_interpreter (fun interp =>
    TopicDatabase.get_topic alerts_db (py "unknown-topic") = None
    /\ webhook_handler alerts_db (answering 200) (py "unknown-topic")
         (py "text/plain") (py "any body")
       = (mk_response 404 (py "Topic not found"),
          [GetTopic (py "unknown-topic")])).
Proof.
  intros interp. split; [reflexivity |].
  apply (unknown_topic_404 alerts_db (answering 200) (py "unknown-topic")
           (py "text/plain") (py "any body")).
  reflexivity.
Defined.

(** Scenario 4: a POST with an empty body. *)
Lemma empty_message_400_witness :
  every_interpreter (fun interp =>
    webhook_handler alerts_db (answering 200) (py "alerts-1")
      (py "text/plain") []
    = (mk_response 400 (py "No message provided"), alerts_trace)
    /\ backend_calls
         (snd (webhook_handler alerts_db (answering 200) (py "alerts-1")
                 (py "text/plain") [])) = 0%nat).
Proof.
  intros interp.
  apply (empty_message_400 alerts_db (answering 200) (py "alerts-1")
           (py "text/plain") []
           (TopicDatabase.mk_row (py "alerts-1") 42 42 0) (PStr []));
    reflexivity.
Defined.

(** C6 as stated fails: Telegram answering 201, a 2xx status, is reported
    to the poster as a failure. *)
Lemma status_201_is_a_failure :
  every_interpreter (fun interp =>
    webhook_handler alerts_db (answering 201) (py "alerts-1")
      (py "text/plain") (py "disk full")
    = (mk_response 500 (py "Failed to send notification"),
       alerts_sent (py "disk full"))).
Proof. intros interp. reflexivity. Qed.

(** Scenario 2, with the body sent as text. *)
Lemma backend_outcome_mapping_witness :
  every_interpreter (fun interp =>
    let result := webhook_handler alerts_db (answering 200) (py "alerts-1")
                    (py "text/plain") (py "disk full") in
    snd result = alerts_sent (py "disk full")
    /\ backend_calls (snd result) = 1%nat
    /\ fst result = mk_response 200 (py "Notification sent")).
Proof.
  intros interp.
  destruct (backend_outcome_mapping alerts_db (answering 200) (py "alerts-1")
              (py "text/plain") (py "disk full")
              (TopicDatabase.mk_row (py "alerts-1") 42 42 0)
              (PStr (py "disk full")) (py "disk full")
              eq_refl eq_refl eq_refl eq_refl)
    as (Htrace & Hcalls & H200 & _ & _).
  split; [exact Htrace |]. split; [exact Hcalls |]. apply H200. reflexivity.
Defined.


(** C7 as stated fails: a text of opening brackets, one more than the
    interpreter has room for, does not parse as JSON, and is not treated as
    free text either: [json.loads] raises [RecursionError] at line 305,
    line 309 does not catch it, and the poster is answered 500 with nothing
    sent.  Where the limit on integer literals is the default 4300 digits,
    the same happens to a text of 4301 digits followed by a word. *)
Lemma unparsed_text_is_not_free_text :
  every_interpreter (fun interp =>
    let candidate := repeat 91 (S max_nesting) in
    let long := repeat 49 4301 ++ py " x" in
    json_loads candidate = RecursionError
    /\ format_message (PStr candidate) = Raise
    /\ webhook_handler alerts_db (answering 200) (py "alerts-1")
         (py "text/plain") candidate
       = (internal_server_error, alerts_trace)
    /\ (int_max_str_digits = 4300%nat ->
        json_loads long = ValueError
        /\ webhook_handler alerts_db (answering 200) (py "alerts-1")
             (py "text/plain") long
           = (internal_server_error, alerts_trace))).
Proof.
  intros interp candidate long.
  assert (Hl : json_loads candidate = RecursionError)
    by apply json_loads_too_deep.
  assert (Hf : format_message (PStr candidate) = Raise).
  { apply format_message_not_caught. right. left. exact Hl. }
  split; [exact Hl |]. split; [exact Hf |]. split.
  - unfold webhook_handler.
    change (TopicDatabase.get_topic alerts_db (py "alerts-1"))
      with (Some alerts_row).
    rewrite read_message_other by discriminate.
    rewrite utf8_decode_replace_ascii.
    + change (truthy (PStr candidate)) with true. cbn [negb].
      unfold log_and_format. cbn [py_len bind]. rewrite Hf. reflexivity.
    + apply Forall_forall. intros b Hb. apply repeat_spec in Hb. lia.
  - clear Hl Hf. subst candidate long. intros Hlimit.
    destruct interp as [printable hashable digits room eroom dumps str].
    simpl in Hlimit. subst digits. split; vm_compute; reflexivity.
Qed.



(** C9 as stated fails: a JSON body that is not empty is answered 400 when
    its ["message"] is the empty string; and a body of one NUL byte, sent as
    text, is delivered with an empty formatted message. *)
Lemma nonempty_body_400 :
  every_interpreter (fun interp =>
    webhook_handler alerts_db (answering 200) (py "alerts-1")
      application_json (js "{'message':''}")
    = (mk_response 400 (py "No message provided"), alerts_trace)
    /\ webhook_handler alerts_db (answering 200) (py "alerts-1")
         (py "text/plain") [0]
       = (mk_response 200 (py "Notification sent"), alerts_sent [])).
Proof. intros interp. split; reflexivity. Qed.

Lemma empty_condition_witness :
  every_interpreter (fun interp =>
    TopicDatabase.get_topic alerts_db (py "alerts-1")
    = Some (TopicDatabase.mk_row (py "alerts-1") 42 42 0)
    /\ (status (fst (webhook_handler alerts_db (answering 200) (py "alerts-1")
                       (py "text/plain") (py "disk full"))) = 400
        <-> py "disk full" = [])).
Proof.
  intros interp. split; [reflexivity |].
  apply (empty_condition alerts_db (answering 200) (py "alerts-1")
           (py "text/plain") (py "disk full")
           (TopicDatabase.mk_row (py "alerts-1") 42 42 0) eq_refl).
  discriminate.
Defined.



(** ** Further properties of the registry and of the dispatch *)

Module RegistryFacts.
Import TopicDatabase TopicDatabaseFacts.

(** X3.  Lookup is by name alone: the row a successful [add_topic] wrote is
    what [get_topic] finds under that name, whoever asks. *)
Lemma get_topic_after_add (db db' : table) (name : pystr) (uid cid now : Z) :
  add_topic db name uid cid now = (true, db') ->
  get_topic db' name = Some (mk_row name uid cid now).
Proof.
  intros H. apply add_topic_true in H as [E ->]. unfold get_topic.
  induction db as [| r db IH]; simpl in *.
  - unfold has_name. simpl. now rewrite pystr_eqb_refl.
  - destruct (has_name name r); [discriminate | now apply IH].
Qed.

Lemma get_topic_after_add_witness :
  add_topic init_database (py "alerts-1") 42 42 0
  = (true, [mk_row (py "alerts-1") 42 42 0])
  /\ get_topic [mk_row (py "alerts-1") 42 42 0] (py "alerts-1")
     = Some (mk_row (py "alerts-1") 42 42 0).
Proof.
  split; [reflexivity |].
  apply (get_topic_after_add init_database _ (py "alerts-1") 42 42 0).
  reflexivity.
Defined.

(** X4.  A name stays taken: after a successful [add_topic], another one
    with the same name fails, whoever calls, and changes nothing. *)
Lemma add_topic_again (db db' : table) (name : pystr)
      (uid cid now uid' cid' now' : Z) :
  add_topic db name uid cid now = (true, db') ->
  add_topic db' name uid' cid' now' = (false, db').
Proof.
  intros H. apply add_topic_true in H as [_ ->].
  apply add_topic_present.
  exists (mk_row name uid cid now). split; [| reflexivity].
  apply in_or_app. right. now left.
Qed.

Lemma add_topic_again_witness :
  add_topic init_database (py "alerts-1") 42 42 0
  = (true, [mk_row (py "alerts-1") 42 42 0])
  /\ add_topic [mk_row (py "alerts-1") 42 42 0] (py "alerts-1") 7 7 5
     = (false, [mk_row (py "alerts-1") 42 42 0]).
Proof.
  split; [reflexivity |].
  apply (add_topic_again init_database _ (py "alerts-1") 42 42 0 7 7 5).
  reflexivity.
Defined.

(** X5.  After a successful [delete_topic] the name is unknown. *)
Lemma get_topic_after_delete (db db' : table) (uid : Z) (name : pystr) :
  primary_key db ->
  delete_topic db uid name = (true, db') ->
  get_topic db' name = None.
Proof.
  intros Hpk Hdel.
  destruct (existsb (owned_by uid name) db) eqn:E.
  - apply existsb_exists in E as (r & Hin & Ho).
    apply owned_by_true in Ho as [<- <-].
    destruct (in_split _ _ Hin) as (before & after & ->).
    rewrite (delete_topic_present _ _ _ Hpk) in Hdel. injection Hdel as <-.
    unfold get_topic.
    destruct (find (has_name (topic_name r)) (before ++ after)) as [r' |] eqn:Hf;
      [| reflexivity].
    apply find_some in Hf as [Hin' Hn'].
    apply has_name_true in Hn'.
    now destruct (primary_key_split _ _ _ Hpk r' Hin').
  - rewrite delete_topic_absent in Hdel; [discriminate |].
    intros r Hr. destruct (owned_by uid name r) eqn:Ho; [| reflexivity].
    assert (existsb (owned_by uid name) db = true)
      by (apply existsb_exists; now exists r).
    congruence.
Qed.

Lemma get_topic_after_delete_witness :
  primary_key [mk_row (py "alerts-1") 42 42 0]
  /\ delete_topic [mk_row (py "alerts-1") 42 42 0] 42 (py "alerts-1")
     = (true, [])
  /\ get_topic [] (py "alerts-1") = None.
Proof.
  assert (Hpk : primary_key [mk_row (py "alerts-1") 42 42 0]).
  { repeat constructor. simpl. tauto. }
  split; [exact Hpk |]. split; [reflexivity |].
  apply (get_topic_after_delete [mk_row (py "alerts-1") 42 42 0] [] 42
           (py "alerts-1") Hpk).
  reflexivity.
Defined.

Lemma add_topic_primary_key_witness :
  primary_key init_database
  /\ primary_key (snd (add_topic init_database (py "alerts-1") 42 42 0)).
Proof.
  split; [apply init_database_primary_key |].
  apply add_topic_primary_key, init_database_primary_key.
Defined.

End RegistryFacts.

(** Scenario 5, formatted: no control character reaches Telegram. *)
Lemma format_message_control_safe_witness :
  every_interpreter (fun interp =>
    format_message (PStr [42; 0; 98; 7; 9]) = Return [92; 42; 98; 9]
    /\ Forall (fun c => 32 <= c \/ c = 9 \/ c = 10 \/ c = 13) [92; 42; 98; 9]).
Proof.
  intros interp. split; [reflexivity |].
  apply (format_message_control_safe (PStr [42; 0; 98; 7; 9])). reflexivity.
Defined.

(** ** The registry: listing, frames and composition *)

Module RegistryMore.
Import TopicDatabase TopicDatabaseFacts.

Lemma find_app_some (A : Type) (f : A -> bool) (l l' : list A) (x : A) :
  find f l = Some x -> find f (l ++ l') = Some x.
Proof.
  induction l as [| a l IH]; simpl; [discriminate |].
  destruct (f a); [easy | exact IH].
Qed.

Lemma find_app_none (A : Type) (f : A -> bool) (l l' : list A) :
  find f l = None -> find f (l ++ l') = find f l'.
Proof.
  induction l as [| a l IH]; simpl; [reflexivity |].
  destruct (f a); [discriminate | exact IH].
Qed.

Lemma find_none_iff (A : Type) (f : A -> bool) (l : list A) :
  find f l = None <-> forall x, In x l -> f x = false.
Proof.
  split; [apply find_none |].
  induction l as [| a l IH]; simpl; intros H; [reflexivity |].
  rewrite (H a) by now left. apply IH. intros x Hx. apply H. now right.
Qed.

Lemma get_topic_none (db : table) (name : pystr) :
  get_topic db name = None <-> forall r, In r db -> topic_name r <> name.
Proof.
  unfold get_topic. rewrite find_none_iff. split; intros H r Hr.
  - apply pystr_eqb_neq. now apply H.
  - apply pystr_eqb_neq. now apply H.
Qed.

(** After a successful [delete_topic] on a table with unique names, no row
    has the name. *)
Lemma delete_topic_frees_name (db db' : table) (uid : Z) (name : pystr) :
  primary_key db ->
  delete_topic db uid name = (true, db') ->
  forall r, In r db' -> topic_name r <> name.
Proof.
  intros Hpk Hdel.
  destruct (existsb (owned_by uid name) db) eqn:E.
  - apply existsb_exists in E as (r & Hin & Ho).
    apply owned_by_true in Ho as [<- <-].
    destruct (in_split _ _ Hin) as (before & after & ->).
    rewrite (delete_topic_present _ _ _ Hpk) in Hdel. injection Hdel as <-.
    apply (primary_key_split _ _ _ Hpk).
  - rewrite delete_topic_absent in Hdel; [discriminate |].
    intros r Hr. destruct (owned_by uid name r) eqn:Ho; [| reflexivity].
    assert (existsb (owned_by uid name) db = true)
      by (apply existsb_exists; now exists r).
    congruence.
Qed.

(** X7.  Unregistering frees the name: on a table with unique names, once
    [delete_topic] has returned [True], [add_topic] with the same name
    succeeds for any user and appends the new row. *)
Theorem add_topic_after_delete
        (db db' : table) (uid : Z) (name : pystr) (uid' cid' now' : Z) :
  primary_key db ->
  delete_topic db uid name = (true, db') ->
  add_topic db' name uid' cid' now'
  = (true, db' ++ [mk_row name uid' cid' now']).
Proof.
  intros Hpk Hdel. apply add_topic_absent.
  exact (delete_topic_frees_name _ _ _ _ Hpk Hdel).
Qed.

Lemma add_topic_after_delete_witness :
  primary_key [mk_row (py "alerts-1") 42 42 0]
  /\ delete_topic [mk_row (py "alerts-1") 42 42 0] 42 (py "alerts-1")
     = (true, [])
  /\ add_topic [] (py "alerts-1") 7 70 9
     = (true, [mk_row (py "alerts-1") 7 70 9]).
Proof.
  assert (Hpk : primary_key [mk_row (py "alerts-1") 42 42 0]).
  { repeat constructor. simpl. tauto. }
  split; [exact Hpk |]. split; [reflexivity |].
  apply (add_topic_after_delete [mk_row (py "alerts-1") 42 42 0] [] 42
           (py "alerts-1") 7 70 9 Hpk).
  reflexivity.
Defined.

Lemma get_topic_filter_other (f : row -> bool) (db : table) (name : pystr) :
  (forall r, In r db -> f r = false -> topic_name r <> name) ->
  get_topic (filter f db) name = get_topic db name.
Proof.
  unfold get_topic. induction db as [| r db IH]; intros H; [reflexivity |].
  simpl. destruct (f r) eqn:Hf; simpl.
  - destruct (has_name name r); [reflexivity |].
    apply IH. intros x Hx. apply H. now right.
  - assert (Hn : has_name name r = false).
    { apply pystr_eqb_neq. apply H; [now left | exact Hf]. }
    rewrite Hn. apply IH. intros x Hx. apply H. now right.
Qed.

(** X8.  [delete_topic] touches one name and one owner only: the lookup of
    any other name is unchanged, and so is the lookup of a topic that
    belongs to another user, whatever its name. *)
Theorem delete_topic_frame
        (db : table) (uid : Z) (name name' : pystr) :
  (name' <> name ->
   get_topic (snd (delete_topic db uid name)) name' = get_topic db name')
  /\ (forall r, get_topic db name' = Some r -> user_id r <> uid ->
      get_topic (snd (delete_topic db uid name)) name' = Some r).
Proof.
  split.
  - intros Hne. unfold delete_topic. simpl.
    apply get_topic_filter_other. intros r _ Hf.
    apply negb_false_iff, owned_by_true in Hf as [_ Hn]. congruence.
  - intros r Hget Hu. unfold delete_topic. simpl.
    unfold get_topic in *.
    induction db as [| x db IH]; [discriminate |].
    simpl in *. destruct (has_name name' x) eqn:Hx.
    + injection Hget as ->.
      assert (Ho : owned_by uid name r = false).
      { apply owned_by_false. intros [Hu' _]. contradiction. }
      rewrite Ho. simpl. now rewrite Hx.
    + destruct (negb (owned_by uid name x)); simpl; [rewrite Hx |];
        now apply IH.
Qed.

Lemma delete_topic_frame_witness :
  let db := [mk_row (py "a") 1 10 0; mk_row (py "b") 2 20 1] in
  get_topic db (py "b") = Some (mk_row (py "b") 2 20 1)
  /\ get_topic (snd (delete_topic db 1 (py "b"))) (py "b")
     = Some (mk_row (py "b") 2 20 1).
Proof.
  split; [reflexivity |].
  apply (proj2 (delete_topic_frame
                  [mk_row (py "a") 1 10 0; mk_row (py "b") 2 20 1] 1 (py "b")
                  (py "b")));
    [reflexivity | discriminate].
Defined.

(** X9.  [add_topic] never overwrites and never shadows: a lookup that
    found a row before the call finds the same row after it, whatever the
    call returned; and the lookup of any other name is unchanged. *)
Theorem add_topic_frame
        (db : table) (name name' : pystr) (uid cid now : Z) :
  (forall r, get_topic db name' = Some r ->
   get_topic (snd (add_topic db name uid cid now)) name' = Some r)
  /\ (name' <> name ->
      get_topic (snd (add_topic db name uid cid now)) name'
      = get_topic db name').
Proof.
  unfold add_topic.
  destruct (existsb (has_name name) db); simpl; [easy |].
  unfold get_topic. split.
  - intros r. apply find_app_some.
  - intros Hne. destruct (find (has_name name') db) as [r |] eqn:Hf.
    + now apply find_app_some.
    + rewrite find_app_none by exact Hf. simpl.
      assert (Hn : has_name name' (mk_row name uid cid now) = false)
        by (apply pystr_eqb_neq; simpl; congruence).
      now rewrite Hn.
Qed.

Lemma add_topic_frame_witness :
  get_topic [mk_row (py "a") 1 10 0] (py "a") = Some (mk_row (py "a") 1 10 0)
  /\ get_topic (snd (add_topic [mk_row (py "a") 1 10 0] (py "a") 2 20 5))
       (py "a")
     = Some (mk_row (py "a") 1 10 0).
Proof.
  split; [reflexivity |].
  apply (proj1 (add_topic_frame [mk_row (py "a") 1 10 0] (py "a") (py "a")
                  2 20 5)).
  reflexivity.
Defined.

(** X10.  On a table with unique names, [find_topic_by_name] is
    [get_topic] restricted to the user: it returns the row of that name when
    the user owns it, and nothing otherwise. *)
Theorem find_topic_by_name_is_owned_lookup
        (db : table) (uid : Z) (name : pystr) :
  primary_key db ->
  find_topic_by_name db uid name
  = match get_topic db name with
    | Some r => if user_id r =? uid then Some r else None
    | None => None
    end.
Proof.
  unfold find_topic_by_name, get_topic, primary_key.
  induction db as [| r db IH]; intros Hpk; [reflexivity |].
  simpl in *. inversion Hpk as [| ? ? Hnot Hrest]; subst.
  unfold owned_by at 1. fold (has_name name r).
  destruct (has_name name r) eqn:Hn.
  - destruct (user_id r =? uid); simpl; [reflexivity |].
    apply find_none_iff. intros x Hx. apply owned_by_false. intros [_ Hxn].
    apply has_name_true in Hn. apply Hnot.
    rewrite Hn, <- Hxn. now apply in_map.
  - rewrite andb_false_r. now apply IH.
Qed.

Lemma find_topic_by_name_is_owned_lookup_witness :
  primary_key [mk_row (py "a") 1 10 0]
  /\ find_topic_by_name [mk_row (py "a") 1 10 0] 2 (py "a") = None
  /\ find_topic_by_name [mk_row (py "a") 1 10 0] 1 (py "a")
     = Some (mk_row (py "a") 1 10 0).
Proof.
  assert (Hpk : primary_key [mk_row (py "a") 1 10 0]).
  { repeat constructor. simpl. tauto. }
  split; [exact Hpk |].
  rewrite !(find_topic_by_name_is_owned_lookup _ _ _ Hpk). now split.
Defined.

Section Listing.
Context {sqlite : OrderBy}.

Lemma get_user_topics_permutation (db : table) (uid : Z) :
  Permutation (filter (fun r => user_id r =? uid) db) (get_user_topics db uid).
Proof. apply order_by_permutation. Qed.

(** X11.  [get_user_topics] lists the rows of the user and no other: a row
    is in the result exactly when it is in the table with that user; the
    result has as many rows as the user has, newest first; and on a table
    with unique names no topic is listed twice. *)
Theorem get_user_topics_lists_own_rows (db : table) (uid : Z) :
  (forall r, In r (get_user_topics db uid) <-> In r db /\ user_id r = uid)
  /\ length (get_user_topics db uid)
     = length (filter (fun r => user_id r =? uid) db)
  /\ newest_first (get_user_topics db uid)
  /\ (primary_key db -> NoDup (map topic_name (get_user_topics db uid))).
Proof.
  pose proof (get_user_topics_permutation db uid) as Hp.
  split; [| split; [| split]].
  - intros r. split.
    + intros Hin. apply (Permutation_in _ (Permutation_sym Hp)) in Hin.
      apply filter_In in Hin as [Hin Hu]. now apply Z.eqb_eq in Hu.
    + intros [Hin Hu]. apply (Permutation_in _ Hp).
      apply filter_In. split; [easy | now apply Z.eqb_eq].
  - symmetry. now apply Permutation_length.
  - apply order_by_sorted.
  - intros Hpk.
    apply (Permutation_NoDup (Permutation_map topic_name Hp)).
    now apply filter_primary_key.
Qed.

End Listing.

End RegistryMore.

(** ** Escaping, read back *)

Lemma markdown_special_backslash : markdown_special 92 = false.
Proof. reflexivity. Qed.

Lemma escape_each_head (s : pystr) :
  match escape_each s with
  | [] => True
  | d :: _ => markdown_special d = false
  end.
Proof.
  destruct s as [| c s]; [exact I |]. simpl.
  destruct (markdown_special c) eqn:E; simpl; [reflexivity | exact E].
Qed.

Lemma unescape_escape_each (s : pystr) :
  unescape_markdown (escape_each s) = s.
Proof.
  induction s as [| c s IH]; [reflexivity |].
  simpl. destruct (markdown_special c) eqn:E.
  - simpl. rewrite E. simpl. now rewrite IH.
  - change ([c] ++ escape_each s) with (c :: escape_each s).
    pose proof (escape_each_head s) as Hh.
    cbn [unescape_markdown].
    destruct (escape_each s) as [| d rest] eqn:Es.
    + simpl in IH. now rewrite <- IH.
    + rewrite Hh, andb_false_r. now rewrite IH.
Qed.

(** X12.  Escaping loses nothing: dropping the backslash before each
    special character of [escape_markdown s] gives [s] back, so two
    different texts are never escaped to the same one. *)
Theorem escape_markdown_reads_back (s t : pystr) :
  unescape_markdown (escape_markdown s) = s
  /\ (escape_markdown s = escape_markdown t -> s = t).
Proof.
  split.
  - rewrite escape_markdown_each. apply unescape_escape_each.
  - intros H. rewrite !escape_markdown_each in H.
    rewrite <- (unescape_escape_each s), <- (unescape_escape_each t).
    now rewrite H.
Qed.

Lemma escape_markdown_reads_back_witness :
  escape_markdown (py "a\_b") = escape_markdown (py "a\_b")
  /\ unescape_markdown (escape_markdown (py "a\_b")) = py "a\_b".
Proof.
  split; [reflexivity |].
  exact (proj1 (escape_markdown_reads_back (py "a\_b") (py "a\_b"))).
Defined.

Lemma escape_each_special_after_backslash (s : pystr) :
  forall pre c post,
  escape_each s = pre ++ c :: post ->
  markdown_special c = true ->
  exists pre', pre = pre' ++ [92].
Proof.
  induction s as [| a s IH]; intros pre c post Heq Hc.
  - destruct pre; discriminate.
  - simpl in Heq. destruct (markdown_special a) eqn:Ha.
    + destruct pre as [| p1 [| p2 pre]]; simpl in Heq.
      * injection Heq as <- _. discriminate.
      * injection Heq as <- _ _. now exists [].
      * injection Heq as <- <- Heq.
        destruct (IH pre c post Heq Hc) as (pre' & ->).
        now exists (92 :: a :: pre').
    + destruct pre as [| p1 pre]; simpl in Heq.
      * injection Heq as <- _. congruence.
      * injection Heq as <- Heq.
        destruct (IH pre c post Heq Hc) as (pre' & ->).
        now exists (a :: pre').
Qed.

(** X13.  In the escaped text no special character stands bare: each
    underscore, asterisk, square bracket and backtick of [escape_markdown s]
    has a backslash right before it. *)
Theorem escape_markdown_leaves_none_bare (s pre post : pystr) (c : Z) :
  escape_markdown s = pre ++ c :: post ->
  markdown_special c = true ->
  exists pre', pre = pre' ++ [92].
Proof.
  rewrite escape_markdown_each. apply escape_each_special_after_backslash.
Qed.

Lemma escape_markdown_leaves_none_bare_witness :
  escape_markdown (py "*a") = [92] ++ 42 :: py "a"
  /\ markdown_special 42 = true
  /\ exists pre', [92] = pre' ++ [92].
Proof.
  split; [reflexivity |]. split; [reflexivity |].
  apply (escape_markdown_leaves_none_bare (py "*a") [92] (py "a") 42);
    reflexivity.
Defined.

(** ** The handler: what a trace and an answer tell *)

Section HandlerMore.
Context {interp : Interpreter}.

(** The five ways a request can go. *)
Lemma webhook_handler_cases
      (db : TopicDatabase.table) (post : Z -> pystr -> backend)
      (topic_name content_type : pystr) (raw_body : pybytes) :
  let result := webhook_handler db post topic_name content_type raw_body in
  (TopicDatabase.get_topic db topic_name = None
   /\ result = (mk_response 404 (py "Topic not found"), [GetTopic topic_name]))
  \/ (exists topic_info,
      TopicDatabase.get_topic db topic_name = Some topic_info
      /\ ((read_message content_type raw_body = Raise
           /\ result = (internal_server_error, [GetTopic topic_name; ReadBody]))
          \/ (exists message,
              read_message content_type raw_body = Return message
              /\ ((truthy message = false
                   /\ result = (mk_response 400 (py "No message provided"),
                                [GetTopic topic_name; ReadBody]))
                  \/ (truthy message = true
                      /\ log_and_format message = Raise
                      /\ result = (internal_server_error,
                                   [GetTopic topic_name; ReadBody]))
                  \/ (exists formatted,
                      truthy message = true
                      /\ log_and_format message = Return formatted
                      /\ snd result
                         = [GetTopic topic_name; ReadBody;
                            SendMessage (TopicDatabase.chat_id topic_info)
                              (notification_text topic_name formatted)]
                      /\ fst result
                         = match post (TopicDatabase.chat_id topic_info)
                                   (notification_text topic_name formatted) with
                           | Replied code =>
                             if code =? 200
                             then mk_response 200 (py "Notification sent")
                             else mk_response 500
                                    (py "Failed to send notification")
                           | ClientError => internal_server_error
                           end))))).
Proof.
  unfold webhook_handler.
  destruct (TopicDatabase.get_topic db topic_name) as [topic_info |];
    [right; exists topic_info; split; [reflexivity |] | now left].
  destruct (read_message content_type raw_body) as [message |];
    [right; exists message; split; [reflexivity |] | now left].
  destruct (truthy message); simpl; [right | now left].
  destruct (log_and_format message) as [formatted |]; [right | now left].
  exists formatted. repeat split.
  - now destruct (post _ _) as [code |]; [destruct (code =? 200) |].
  - now destruct (post _ _) as [code |]; [destruct (code =? 200) |].
Qed.

(** X14.  Notifications go where the topic points: whatever the handler
    sends to Telegram goes to the chat stored with the topic that the
    request names, and its text is the notification header for that name
    followed by a formatted message. *)
Theorem notification_goes_to_topic_chat
        (db : TopicDatabase.table) (post : Z -> pystr -> backend)
        (topic_name content_type : pystr) (raw_body : pybytes)
        (chat : Z) (text : pystr) :
  In (SendMessage chat text)
     (snd (webhook_handler db post topic_name content_type raw_body)) ->
  exists topic_info formatted,
    TopicDatabase.get_topic db topic_name = Some topic_info
    /\ chat = TopicDatabase.chat_id topic_info
    /\ text = notification_text topic_name formatted.
Proof.
  intros Hin.
  destruct (webhook_handler_cases db post topic_name content_type raw_body)
    as [[_ H] | (topic_info & Ht & [[_ H] | (m & _ & [[_ H] | [(_ & _ & H) | H]])])];
    try (rewrite H in Hin; simpl in Hin;
         repeat (destruct Hin as [Hin | Hin]; try discriminate); contradiction).
  destruct H as (formatted & _ & _ & Htrace & _).
  rewrite Htrace in Hin. simpl in Hin.
  repeat (destruct Hin as [Hin | Hin]; try discriminate); [| contradiction].
  injection Hin as <- <-. now exists topic_info, formatted.
Qed.

(** X15.  The answer 200 is an acknowledgement: the handler answers 200
    only when it called Telegram, once, for the chat of the topic, and
    Telegram answered that call with status 200. *)
Theorem status_200_acknowledges
        (db : TopicDatabase.table) (post : Z -> pystr -> backend)
        (topic_name content_type : pystr) (raw_body : pybytes) :
  status (fst (webhook_handler db post topic_name content_type raw_body)) = 200 ->
  exists topic_info formatted,
    TopicDatabase.get_topic db topic_name = Some topic_info
    /\ snd (webhook_handler db post topic_name content_type raw_body)
       = [GetTopic topic_name; ReadBody;
          SendMessage (TopicDatabase.chat_id topic_info)
            (notification_text topic_name formatted)]
    /\ post (TopicDatabase.chat_id topic_info)
            (notification_text topic_name formatted) = Replied 200.
Proof.
  intros H200.
  destruct (webhook_handler_cases db post topic_name content_type raw_body)
    as [[_ H] | (topic_info & Ht & [[_ H] | (m & _ & [[_ H] | [(_ & _ & H) | H]])])];
    try (rewrite H in H200; discriminate).
  destruct H as (formatted & _ & _ & Htrace & Hanswer).
  exists topic_info, formatted. split; [exact Ht |]. split; [exact Htrace |].
  rewrite Hanswer in H200.
  destruct (post _ _) as [code |]; [| discriminate].
  destruct (code =? 200) eqn:E; [| discriminate].
  apply Z.eqb_eq in E. now subst.
Qed.

(** X16.  Under [application/json], a body whose cleaned text is JSON but
    not an object -- a number, a string, a list, [true], [null] -- is always
    answered 500 "Internal server error", and Telegram is not called. *)
Theorem json_non_object_is_500
        (db : TopicDatabase.table) (post : Z -> pystr -> backend)
        (topic_name : pystr) (raw_body : pybytes)
        (topic_info : TopicDatabase.row) (data : pyvalue) :
  TopicDatabase.get_topic db topic_name = Some topic_info ->
  json_loads (clean_raw_body raw_body) = Loaded data ->
  (forall d, data <> PDict d) ->
  webhook_handler db post topic_name application_json raw_body
  = (internal_server_error, [GetTopic topic_name; ReadBody]).
Proof.
  intros Ht Hl Hnd. unfold webhook_handler.
  rewrite Ht, read_message_json, Hl.
  destruct data; try reflexivity. now destruct (Hnd d).
Qed.

(** The [repr] of a [dict] whose first key holds no apostrophe opens with
    a brace and an apostrophe. *)
Lemma py_repr_dict_opens (k : pystr) (v : pyvalue) (d : pydict) :
  existsb (Z.eqb 39) k = false ->
  exists rest, py_repr (PDict ((k, v) :: d)) = 123 :: 39 :: rest.
Proof.
  intros Hk. cbn [py_repr map fst snd].
  assert (Hq : exists r, str_repr k = 39 :: r).
  { unfold str_repr. rewrite Hk. simpl. now eexists. }
  destruct Hq as (r & Hr). rewrite Hr.
  destruct d as [| kv d]; simpl; now eexists.
Qed.

(** X17.  Under [application/json], a body whose cleaned text is a JSON
    object without a ["message"] key, and whose [str] the interpreter can
    write, is never answered 400: its [str] is the message, and once lines
    300-314 have formatted it Telegram is called with it.  Unless the first
    key holds an apostrophe that message is not JSON, and it is formatted as
    free text. *)
Theorem json_object_without_message_is_sent
        (db : TopicDatabase.table) (post : Z -> pystr -> backend)
        (topic_name : pystr) (raw_body : pybytes)
        (topic_info : TopicDatabase.row) (d : pydict) :
  TopicDatabase.get_topic db topic_name = Some topic_info ->
  json_loads (clean_raw_body raw_body) = Loaded (PDict d) ->
  str_raises (PDict d) = false ->
  dict_find d (py "message") = None ->
  let message := py_repr (PDict d) in
  let result := webhook_handler db post topic_name application_json raw_body in
  read_message application_json raw_body = Return (PStr message)
  /\ status (fst result) <> 400
  /\ (forall formatted,
      format_message (PStr message) = Return formatted ->
      snd result
      = [GetTopic topic_name; ReadBody;
         SendMessage (TopicDatabase.chat_id topic_info)
           (notification_text topic_name formatted)])
  /\ (forall k v d', d = (k, v) :: d' -> existsb (Z.eqb 39) k = false ->
      format_message (PStr message)
      = Return (escape_each (strip_controls message))).
Proof.
  intros Ht Hl Hs Hfind message result.
  assert (Hm : read_message application_json raw_body
               = Return (PStr message)).
  { now rewrite read_message_json, Hl, Hs, dict_get_find, Hfind. }
  assert (Htruthy : truthy (PStr message) = true) by reflexivity.
  split; [exact Hm |]. split; [| split].
  - subst result. unfold webhook_handler. rewrite Ht, Hm, Htruthy. cbn [negb].
    destruct (log_and_format (PStr message)) as [f |]; [| discriminate].
    destruct (post _ _) as [code |]; [destruct (code =? 200) |]; discriminate.
  - intros f Hf. subst result. unfold webhook_handler.
    rewrite Ht, Hm, Htruthy. cbn [negb].
    rewrite (log_and_format_return _ _ Hf).
    now destruct (post _ _) as [code |]; [destruct (code =? 200) |].
  - intros k v d' -> Hk. apply format_message_free_text.
    destruct (py_repr_dict_opens k v d' Hk) as (rest & Hr).
    subst message. rewrite Hr. apply json_loads_brace_apostrophe.
Qed.

(** X18.  Plain text is delivered as it is: when [request.read()] has
    returned a body, not declared [application/json], of printable ASCII
    characters none of which Markdown reads, and [json.loads] refuses it
    with a [JSONDecodeError], it reaches Telegram unchanged after the
    notification header. *)
Theorem plain_text_is_sent_verbatim
        (db : TopicDatabase.table) (post : Z -> pystr -> backend)
        (topic_name content_type : pystr) (raw_body : pybytes)
        (topic_info : TopicDatabase.row) :
  TopicDatabase.get_topic db topic_name = Some topic_info ->
  content_type <> application_json ->
  raw_body <> [] ->
  forallb plain_char raw_body = true ->
  json_loads (utf8_decode_replace raw_body) = JSONDecodeError ->
  snd (webhook_handler db post topic_name content_type raw_body)
  = [GetTopic topic_name; ReadBody;
     SendMessage (TopicDatabase.chat_id topic_info)
       (notification_text topic_name raw_body)].
Proof.
  intros Ht Hct Hne Hplain Hl.
  rewrite forallb_forall in Hplain.
  assert (Hc : forall c, In c raw_body ->
                 32 <= c <= 126 /\ markdown_special c = false).
  { intros c Hin. specialize (Hplain c Hin). unfold plain_char in Hplain.
    apply andb_true_iff in Hplain as [Hr Hs].
    apply andb_true_iff in Hr as [H1 H2].
    apply Z.leb_le in H1, H2. apply negb_true_iff in Hs. now split. }
  assert (Hd : utf8_decode_replace raw_body = raw_body).
  { apply utf8_decode_replace_ascii, Forall_forall.
    intros c Hin. destruct (Hc c Hin). lia. }
  rewrite Hd in Hl.
  assert (Hs : strip_controls raw_body = raw_body).
  { apply strip_controls_text. apply forallb_forall. intros c Hin.
    apply json_text_char_range. now destruct (Hc c Hin). }
  assert (Hf : format_message (PStr raw_body) = Return raw_body).
  { rewrite (format_message_free_text _ Hl), Hs.
    f_equal. apply escape_each_plain. intros c Hin. now destruct (Hc c Hin). }
  unfold webhook_handler.
  rewrite Ht, (read_message_other _ _ Hct), Hd.
  assert (Htruthy : truthy (PStr raw_body) = true)
    by (destruct raw_body; [contradiction | reflexivity]).
  rewrite Htruthy. cbn [negb]. rewrite (log_and_format_return _ _ Hf).
  now destruct (post _ _) as [code |]; [destruct (code =? 200) |].
Qed.

End HandlerMore.

(** ** The commands *)

Lemma str_replace_nil (old : Z) (s : pystr) :
  str_replace old [] s = filter (fun c => negb (c =? old)) s.
Proof.
  unfold str_replace. induction s as [| c s IH]; [reflexivity |].
  simpl. rewrite IH. now destruct (c =? old).
Qed.

Lemma join_space_two (a b : pystr) (rest : list pystr) :
  In 32 (join [32] (a :: b :: rest)).
Proof.
  change (join [32] (a :: b :: rest)) with (a ++ [32] ++ join [32] (b :: rest)).
  apply in_or_app. right. now left.
Qed.

Lemma reply_kinds_differ (a b : pystr) : markdown_reply a <> plain_reply b.
Proof. discriminate. Qed.

Section CommandFacts.
Context {unicode : UnicodeData} {sqlite : TopicDatabase.OrderBy}.

Lemma isalnum_char_hyphen : isalnum_char 45 = false.
Proof. now rewrite isalnum_char_ascii by lia. Qed.

Lemma isalnum_char_underscore : isalnum_char 95 = false.
Proof. now rewrite isalnum_char_ascii by lia. Qed.

(** What is left of a name once hyphens and underscores are taken out. *)
Lemma stripped_name_In (s : pystr) (c : Z) :
  In c (str_replace 95 [] (str_replace 45 [] s))
  <-> In c s /\ c <> 45 /\ c <> 95.
Proof.
  rewrite !str_replace_nil, !filter_In, !negb_true_iff, !Z.eqb_neq. tauto.
Qed.

Lemma valid_topic_name_iff (s : pystr) :
  valid_topic_name s = true
  <-> (exists c, In c s /\ isalnum_char c = true)
      /\ (forall c, In c s -> c = 45 \/ c = 95 \/ isalnum_char c = true).
Proof.
  unfold valid_topic_name, isalnum.
  set (t := str_replace 95 [] (str_replace 45 [] s)).
  assert (Ht : forall c, In c t <-> In c s /\ c <> 45 /\ c <> 95)
    by apply stripped_name_In.
  clearbody t. split.
  - intros H. destruct t as [| c0 t]; [discriminate |].
    rewrite forallb_forall in H. split.
    + exists c0. split; [apply Ht; now left | apply H; now left].
    + intros c Hc.
      destruct (Z.eq_dec c 45) as [-> | H45]; [now left |].
      destruct (Z.eq_dec c 95) as [-> | H95]; [now right; left |].
      right. right. apply H. now apply Ht.
  - intros [(c0 & Hin0 & Ha0) Hall].
    assert (Hc0 : In c0 t).
    { apply Ht. split; [exact Hin0 |]. split; intros ->.
      - rewrite isalnum_char_hyphen in Ha0. discriminate.
      - rewrite isalnum_char_underscore in Ha0. discriminate. }
    destruct t as [| c1 t]; [contradiction |].
    apply forallb_forall. intros c Hc. apply Ht in Hc as (Hc & H45 & H95).
    destruct (Hall c Hc) as [-> | [-> | Ha]]; congruence.
Qed.

(** X19.  The test of line 199 lets a name through exactly when it has at
    least one alphanumeric character and nothing but alphanumeric
    characters, hyphens and underscores; so the only ASCII characters of a
    name that passes are letters, digits, hyphen and underscore -- no slash,
    no space, no dot. *)
Theorem valid_topic_name_characters (s : pystr) :
  (valid_topic_name s = true
   <-> (exists c, In c s /\ isalnum_char c = true)
       /\ (forall c, In c s -> c = 45 \/ c = 95 \/ isalnum_char c = true))
  /\ (valid_topic_name s = true ->
      s <> []
      /\ forall c, In c s -> 0 <= c < 128 ->
         ascii_alnum c = true \/ c = 45 \/ c = 95).
Proof.
  split; [apply valid_topic_name_iff |].
  intros H. apply valid_topic_name_iff in H as [(c0 & Hin0 & _) Hall].
  split; [intros ->; contradiction |].
  intros c Hc Hascii. destruct (Hall c Hc) as [-> | [-> | Ha]]; auto.
  left. now rewrite <- isalnum_char_ascii.
Qed.

(** An ASCII name of letters, digits, hyphens and underscores, with a
    letter or a digit in it, passes the test. *)
Lemma valid_ascii_name (s : pystr) :
  forallb (fun c => ascii_alnum c || (c =? 45) || (c =? 95)) s = true ->
  forallb (fun c => (0 <=? c) && (c <? 128)) s = true ->
  existsb ascii_alnum s = true ->
  valid_topic_name s = true.
Proof.
  rewrite !forallb_forall. intros Hchars Hascii Hex.
  assert (Hr : forall c, In c s -> 0 <= c < 128).
  { intros c Hc. specialize (Hascii c Hc).
    apply andb_true_iff in Hascii as [H1 H2].
    apply Z.leb_le in H1. apply Z.ltb_lt in H2. lia. }
  apply valid_topic_name_iff. split.
  - apply existsb_exists in Hex as (c & Hc & Ha). exists c. split; [easy |].
    now rewrite isalnum_char_ascii by auto.
  - intros c Hc. specialize (Hchars c Hc).
    apply orb_true_iff in Hchars as [Hchars | H95];
      [apply orb_true_iff in Hchars as [Ha | H45] |].
    + right. right. now rewrite isalnum_char_ascii by auto.
    + left. now apply Z.eqb_eq.
    + right. left. now apply Z.eqb_eq.
Qed.

Lemma valid_topic_name_no_space (s : pystr) :
  In 32 s -> valid_topic_name s = false.
Proof.
  intros Hin. destruct (valid_topic_name s) eqn:E; [| reflexivity].
  apply valid_topic_name_iff in E as [_ Hall].
  destruct (Hall 32 Hin) as [H | [H | H]]; try discriminate.
  rewrite isalnum_char_ascii in H by lia. discriminate.
Qed.

(** X20.  A name of several words is refused: [/register] followed by two
    words or more is answered with the naming rule, and the table is left
    as it was. *)
Theorem register_several_words_refused
        (db : TopicDatabase.table) (now : Z) (args : list pystr)
        (user_id chat_id : Z) :
  (2 <= length args)%nat ->
  register_command db now args user_id chat_id = (db, register_invalid).
Proof.
  intros Hlen. destruct args as [| a [| b rest]]; try (simpl in Hlen; lia).
  unfold register_command.
  now rewrite (valid_topic_name_no_space _ (join_space_two a b rest)).
Qed.

(** The table and the reply of [register_command], case by case. *)
Lemma register_command_cases
      (db : TopicDatabase.table) (now : Z) (args : list pystr)
      (user_id chat_id : Z) :
  let name := join [32] args in
  (args = [] /\ register_command db now args user_id chat_id
                = (db, register_usage))
  \/ (args <> [] /\ valid_topic_name name = false
      /\ register_command db now args user_id chat_id = (db, register_invalid))
  \/ (args <> [] /\ valid_topic_name name = true
      /\ existsb (TopicDatabase.has_name name) db = true
      /\ register_command db now args user_id chat_id
         = (db, register_taken name))
  \/ (args <> [] /\ valid_topic_name name = true
      /\ existsb (TopicDatabase.has_name name) db = false
      /\ register_command db now args user_id chat_id
         = (db ++ [TopicDatabase.mk_row name user_id chat_id now],
            register_done name)).
Proof.
  destruct args as [| a rest]; [now left |]. right.
  unfold register_command, TopicDatabase.add_topic.
  set (name := join [32] (a :: rest)). cbv zeta.
  destruct (valid_topic_name name); simpl; [right | now left].
  destruct (existsb (TopicDatabase.has_name name) db); [left | right];
    repeat split; discriminate.
Qed.

Lemma get_topic_app_new (db : TopicDatabase.table) (r : TopicDatabase.row) :
  existsb (TopicDatabase.has_name (TopicDatabase.topic_name r)) db = false ->
  TopicDatabase.get_topic (db ++ [r]) (TopicDatabase.topic_name r) = Some r.
Proof.
  intros E. unfold TopicDatabase.get_topic.
  induction db as [| x db IH]; simpl in *.
  - unfold TopicDatabase.has_name. now rewrite pystr_eqb_refl.
  - destruct (TopicDatabase.has_name (TopicDatabase.topic_name r) x);
      [discriminate | now apply IH].
Qed.

(** X21.  A topic routes to the chat it was registered from: when
    [/register] answers that the topic is registered, the name is in the
    table with the user and the chat of the command, and every notification
    the webhook then sends for that name goes to that chat. *)
Theorem register_done_routes_to_chat
        {interp : Interpreter}
        (db db' : TopicDatabase.table) (now : Z) (args : list pystr)
        (user_id chat_id : Z) :
  register_command db now args user_id chat_id
  = (db', register_done (join [32] args)) ->
  TopicDatabase.get_topic db' (join [32] args)
  = Some (TopicDatabase.mk_row (join [32] args) user_id chat_id now)
  /\ forall post content_type raw_body chat text,
      In (SendMessage chat text)
         (snd (webhook_handler db' post (join [32] args) content_type raw_body)) ->
      chat = chat_id.
Proof.
  intros Hreg.
  destruct (register_command_cases db now args user_id chat_id)
    as [[_ H] | [(_ & _ & H) | [(_ & _ & _ & H) | (_ & _ & E & H)]]];
    rewrite H in Hreg; try discriminate.
  injection Hreg as <-.
  set (name := join [32] args) in *.
  assert (Hget : TopicDatabase.get_topic
                   (db ++ [TopicDatabase.mk_row name user_id chat_id now]) name
                 = Some (TopicDatabase.mk_row name user_id chat_id now))
    by exact (get_topic_app_new db
                (TopicDatabase.mk_row name user_id chat_id now) E).
  split; [exact Hget |].
  intros post content_type raw_body chat text Hin.
  destruct (webhook_handler_cases
              (db ++ [TopicDatabase.mk_row name user_id chat_id now])
              post name content_type raw_body)
    as [[Hn _] | (topic_info & Ht & Hrest)]; [congruence |].
  rewrite Hget in Ht. injection Ht as <-.
  destruct Hrest as [[_ H'] | (m & _ & [[_ H'] | [(_ & _ & H') | H']])];
    try (rewrite H' in Hin; simpl in Hin;
         repeat (destruct Hin as [Hin | Hin]; try discriminate); contradiction).
  destruct H' as (formatted & _ & _ & Htrace & _).
  rewrite Htrace in Hin. simpl in Hin.
  repeat (destruct Hin as [Hin | Hin]; try discriminate); [| contradiction].
  now injection Hin as <- _.
Qed.

(** X22.  [/register] never takes a topic over: whatever its arguments and
    whoever sends it, a name that was in the table before the command is
    still there after it, with the same user, chat and timestamp. *)
Theorem register_never_redirects
        (db : TopicDatabase.table) (now : Z) (args : list pystr)
        (user_id chat_id : Z) (name : pystr) (topic : TopicDatabase.row) :
  TopicDatabase.get_topic db name = Some topic ->
  TopicDatabase.get_topic
    (fst (register_command db now args user_id chat_id)) name
  = Some topic.
Proof.
  intros Hget.
  destruct (register_command_cases db now args user_id chat_id)
    as [[_ H] | [(_ & _ & H) | [(_ & _ & _ & H) | (_ & _ & _ & H)]]];
    rewrite H; simpl; try exact Hget.
  now apply RegistryMore.find_app_some.
Qed.

Lemma unregister_command_table
      (db : TopicDatabase.table) (args : list pystr) (user_id : Z) :
  fst (unregister_command db args user_id) = db
  \/ fst (unregister_command db args user_id)
     = snd (TopicDatabase.delete_topic db user_id (join [32] args)).
Proof.
  unfold unregister_command. destruct args as [| a rest]; [now left |].
  right. destruct (TopicDatabase.delete_topic db user_id _) as [[|] db'];
    reflexivity.
Qed.

(** X23.  The commands keep the registry well formed: if no two rows share
    a name and every name passes the test of line 199, the same holds after
    [/register] and after [/unregister], whatever their arguments. *)
Theorem commands_keep_registry_well_formed
        (db : TopicDatabase.table) (now : Z) (args : list pystr)
        (user_id chat_id : Z) :
  well_formed_registry db ->
  well_formed_registry (fst (register_command db now args user_id chat_id))
  /\ well_formed_registry (fst (unregister_command db args user_id)).
Proof.
  intros [Hpk Hvalid]. split.
  - destruct (register_command_cases db now args user_id chat_id)
      as [[_ H] | [(_ & _ & H) | [(_ & _ & _ & H) | (_ & Hv & E & H)]]];
      rewrite H; simpl; try (now split).
    split.
    + unfold TopicDatabase.primary_key in *. rewrite map_app. simpl.
      apply NoDup_app; [assumption | repeat constructor; simpl; tauto |].
      intros x Hx [<- | []].
      apply TopicDatabaseFacts.existsb_has_name in Hx. congruence.
    + apply Forall_app. split; [exact Hvalid |]. now repeat constructor.
  - destruct (unregister_command_table db args user_id) as [-> | ->];
      [now split |].
    split.
    + now apply TopicDatabaseFacts.filter_primary_key.
    + apply Forall_forall. intros r Hr. simpl in Hr.
      apply filter_In in Hr as [Hr _].
      rewrite Forall_forall in Hvalid. now apply Hvalid.
Qed.

(** X24.  [/unregister] removes only what the sender owns: a topic of
    another user is still found after the command, whatever its arguments;
    and the command answers "unregistered" exactly when the sender had a
    topic of the name given. *)
Theorem unregister_only_own
        (db : TopicDatabase.table) (args : list pystr) (user_id : Z) :
  (forall name topic,
     TopicDatabase.get_topic db name = Some topic ->
     TopicDatabase.user_id topic <> user_id ->
     TopicDatabase.get_topic (fst (unregister_command db args user_id)) name
     = Some topic)
  /\ (snd (unregister_command db args user_id)
      = unregister_done (join [32] args)
      <-> args <> []
          /\ exists topic,
              In topic db
              /\ TopicDatabase.user_id topic = user_id
              /\ TopicDatabase.topic_name topic = join [32] args).
Proof.
  split.
  - intros name topic Hget Hu.
    destruct (unregister_command_table db args user_id) as [-> | ->];
      [exact Hget |].
    unfold TopicDatabase.delete_topic, TopicDatabase.get_topic in *. simpl.
    induction db as [| x db IH]; [discriminate |].
    simpl in *. destruct (TopicDatabase.has_name name x) eqn:Hx.
    + injection Hget as ->.
      assert (Ho : TopicDatabase.owned_by user_id (join [32] args) topic = false).
      { apply TopicDatabaseFacts.owned_by_false. intros [Hu' _]. contradiction. }
      rewrite Ho. simpl. now rewrite Hx.
    + destruct (negb (TopicDatabase.owned_by user_id (join [32] args) x));
        simpl; [rewrite Hx |]; now apply IH.
  - unfold unregister_command. destruct args as [| a rest].
    + split; [discriminate | now intros [H _]].
    + set (name := join [32] (a :: rest)).
      unfold TopicDatabase.delete_topic.
      set (own := filter (TopicDatabase.owned_by user_id name) db).
      assert (Hown : forall r, In r own <->
                In r db /\ TopicDatabase.user_id r = user_id
                /\ TopicDatabase.topic_name r = name).
      { intros r. unfold own.
        now rewrite filter_In, TopicDatabaseFacts.owned_by_true. }
      destruct own as [| r own]; simpl.
      * split; [discriminate |]. intros (_ & r & Hr).
        apply (Hown r) in Hr. contradiction.
      * split; [intros _ | reflexivity]. split; [discriminate |].
        exists r. apply Hown. now left.
Qed.

(** X25.  After "unregistered" the webhook is closed: on a table with
    unique names, once [/unregister] has answered that the topic is
    unregistered, the name is not in the table and a POST for it is answered
    404 without a call to Telegram. *)
Theorem unregister_done_then_404
        {interp : Interpreter}
        (db : TopicDatabase.table) (args : list pystr) (user_id : Z)
        (post : Z -> pystr -> backend) (content_type : pystr)
        (raw_body : pybytes) :
  TopicDatabase.primary_key db ->
  snd (unregister_command db args user_id) = unregister_done (join [32] args) ->
  TopicDatabase.get_topic (fst (unregister_command db args user_id))
    (join [32] args) = None
  /\ webhook_handler (fst (unregister_command db args user_id)) post
       (join [32] args) content_type raw_body
     = (mk_response 404 (py "Topic not found"), [GetTopic (join [32] args)]).
Proof.
  intros Hpk Hdone.
  assert (Hnone : TopicDatabase.get_topic
                    (fst (unregister_command db args user_id))
                    (join [32] args) = None).
  { unfold unregister_command in *. destruct args as [| a rest];
      [discriminate |].
    set (name := join [32] (a :: rest)) in *.
    destruct (TopicDatabase.delete_topic db user_id name) as [[|] db'] eqn:Hdel;
      [| discriminate].
    simpl. apply RegistryMore.get_topic_none.
    exact (RegistryMore.delete_topic_frees_name _ _ _ _ Hpk Hdel). }
  split; [exact Hnone |].
  unfold webhook_handler. now rewrite Hnone.
Qed.

(** X26.  [/list] shows the sender's topics and only those: it answers "no
    registered topics" exactly when the table has no row of the user;
    otherwise the reply is the heading and one line for each row of
    [get_user_topics]; and a topic just registered by the user is among
    them. *)
Theorem list_topics_command_reply
        (db : TopicDatabase.table) (user_id : Z) :
  (list_topics_command db user_id = list_empty
   <-> forall topic, In topic db -> TopicDatabase.user_id topic <> user_id)
  /\ (forall topic, In topic db -> TopicDatabase.user_id topic = user_id ->
      reply_text (list_topics_command db user_id)
      = [128203] ++ py " Your registered topics:" ++ [10; 10]
        ++ join [10] (map topic_line (TopicDatabase.get_user_topics db user_id))
      /\ In (topic_line topic)
            (map topic_line (TopicDatabase.get_user_topics db user_id)))
  /\ (forall now args chat_id db',
      register_command db now args user_id chat_id
      = (db', register_done (join [32] args)) ->
      In (join [32] args)
         (map TopicDatabase.topic_name
            (TopicDatabase.get_user_topics db' user_id))).
Proof.
  assert (Hmem : forall d r, In r (TopicDatabase.get_user_topics d user_id)
                   <-> In r d /\ TopicDatabase.user_id r = user_id).
  { intros d r.
    pose proof (RegistryMore.get_user_topics_permutation d user_id) as Hp.
    split.
    - intros Hin. apply (Permutation_in _ (Permutation_sym Hp)) in Hin.
      apply filter_In in Hin as [Hin Hu]. now apply Z.eqb_eq in Hu.
    - intros [Hin Hu]. apply (Permutation_in _ Hp).
      apply filter_In. split; [easy | now apply Z.eqb_eq]. }
  split; [| split].
  - unfold list_topics_command.
    destruct (TopicDatabase.get_user_topics db user_id) as [| r rows] eqn:E.
    + split; [| reflexivity]. intros _ topic Hin Hu.
      assert (Hr : In topic (TopicDatabase.get_user_topics db user_id))
        by now apply Hmem.
      now rewrite E in Hr.
    + split; [discriminate |]. intros Hnone. exfalso.
      assert (Hr : In r (TopicDatabase.get_user_topics db user_id))
        by (rewrite E; now left).
      apply Hmem in Hr as [Hin Hu]. exact (Hnone r Hin Hu).
  - intros topic Hin Hu.
    assert (Hr : In topic (TopicDatabase.get_user_topics db user_id))
      by now apply Hmem.
    split; [| now apply in_map].
    unfold list_topics_command.
    destruct (TopicDatabase.get_user_topics db user_id); [contradiction |].
    reflexivity.
  - intros now args chat_id db' Hreg.
    destruct (register_command_cases db now args user_id chat_id)
      as [[_ H] | [(_ & _ & H) | [(_ & _ & _ & H) | (_ & _ & _ & H)]]];
      rewrite H in Hreg; try discriminate.
    injection Hreg as <-.
    apply in_map_iff.
    exists (TopicDatabase.mk_row (join [32] args) user_id chat_id now).
    split; [reflexivity |]. apply Hmem. split; [| reflexivity].
    apply in_or_app. right. now left.
Qed.

End CommandFacts.

(** ** What the platform is asked for can be had *)

Lemma insert_newest_permutation (r : TopicDatabase.row)
      (rows : TopicDatabase.table) :
  Permutation (r :: rows) (insert_newest r rows).
Proof.
  induction rows as [| x rows IH]; simpl; [apply Permutation_refl |].
  destruct (TopicDatabase.created_at x <=? TopicDatabase.created_at r);
    [apply Permutation_refl |].
  apply perm_trans with (x :: r :: rows); [apply perm_swap |].
  now apply perm_skip.
Qed.

Lemma sort_newest_permutation (rows : TopicDatabase.table) :
  Permutation rows (sort_newest rows).
Proof.
  induction rows as [| r rows IH]; simpl; [apply perm_nil |].
  apply perm_trans with (r :: sort_newest rows); [now apply perm_skip |].
  apply insert_newest_permutation.
Qed.

Lemma insert_newest_sorted (r : TopicDatabase.row)
      (rows : TopicDatabase.table) :
  TopicDatabase.newest_first rows ->
  TopicDatabase.newest_first (insert_newest r rows).
Proof.
  unfold TopicDatabase.newest_first.
  induction 1 as [| x rows Hs IH Hx]; simpl.
  - repeat constructor.
  - destruct (Z.leb_spec (TopicDatabase.created_at x)
                         (TopicDatabase.created_at r)) as [Hle | Hgt].
    + constructor; [now constructor |].
      constructor; [exact Hle |].
      rewrite Forall_forall in *. intros y Hy. specialize (Hx y Hy). lia.
    + constructor; [exact IH |].
      apply (Permutation_Forall (insert_newest_permutation r rows)).
      constructor; [lia | exact Hx].
Qed.

Lemma sort_newest_sorted (rows : TopicDatabase.table) :
  TopicDatabase.newest_first (sort_newest rows).
Proof.
  induction rows as [| r rows IH]; simpl; [constructor |].
  now apply insert_newest_sorted.
Qed.

(** The contract of [ORDER BY] can be met: insertion sort does. *)
Lemma order_by_can_be_met :
  exists sqlite : TopicDatabase.OrderBy,
    @TopicDatabase.order_by_created_at_desc sqlite = sort_newest.
Proof.
  now exists (TopicDatabase.Build_OrderBy sort_newest
                sort_newest_permutation sort_newest_sorted).
Qed.

Lemma ascii_table_law (c : Z) :
  0 <= c < 128 -> (c <? 128) && ascii_alnum c = ascii_alnum c.
Proof. intros H. destruct (Z.ltb_spec c 128); [reflexivity | lia]. Qed.

(** The law asked of [str.isalnum] can be met: the table cut down to ASCII
    does. *)
Lemma unicode_data_can_be_met :
  exists unicode : UnicodeData,
    @isalnum_char unicode = fun c => (c <? 128) && ascii_alnum c.
Proof.
  now exists (Build_UnicodeData (fun c => (c <? 128) && ascii_alnum c)
                ascii_table_law).
Qed.

(** ** The commands and the webhook, run *)

Lemma alerts_db_primary_key : TopicDatabase.primary_key alerts_db.
Proof. repeat constructor. simpl. tauto. Qed.

Lemma alerts_name_valid {unicode : UnicodeData} :
  valid_topic_name (py "alerts-1") = true.
Proof. apply valid_ascii_name; reflexivity. Qed.

Lemma register_alerts {unicode : UnicodeData} :
  register_command TopicDatabase.init_database 0 [py "alerts-1"] 42 42
  = (alerts_db, register_done (join [32] [py "alerts-1"])).
Proof.
  unfold register_command. cbn [join]. now rewrite alerts_name_valid.
Qed.

Lemma get_user_topics_lists_own_rows_witness :
  every_sqlite (fun sqlite =>
    TopicDatabase.primary_key alerts_db
    /\ NoDup (map TopicDatabase.topic_name
                (TopicDatabase.get_user_topics alerts_db 42))
    /\ In alerts_row (TopicDatabase.get_user_topics alerts_db 42)).
Proof.
  intros sqlite.
  destruct (RegistryMore.get_user_topics_lists_own_rows alerts_db 42)
    as (Hmem & _ & _ & Hnodup).
  split; [apply alerts_db_primary_key |].
  split; [apply Hnodup, alerts_db_primary_key |].
  apply Hmem. split; [now left | reflexivity].
Defined.

Lemma notification_goes_to_topic_chat_witness :
  every_interpreter (fun interp =>
    In (SendMessage 42 (notification_text (py "alerts-1") (py "disk full")))
       (snd (webhook_handler alerts_db (answering 200) (py "alerts-1")
               (py "text/plain") (py "disk full")))
    /\ exists topic_info formatted,
        TopicDatabase.get_topic alerts_db (py "alerts-1") = Some topic_info
        /\ 42 = TopicDatabase.chat_id topic_info
        /\ notification_text (py "alerts-1") (py "disk full")
           = notification_text (py "alerts-1") formatted).
Proof.
  intros interp.
  assert (Hin : In (SendMessage 42
                      (notification_text (py "alerts-1") (py "disk full")))
                   (snd (webhook_handler alerts_db (answering 200)
                           (py "alerts-1") (py "text/plain") (py "disk full")))).
  { right. right. now left. }
  split; [exact Hin |].
  exact (notification_goes_to_topic_chat alerts_db (answering 200)
           (py "alerts-1") (py "text/plain") (py "disk full") 42 _ Hin).
Defined.

Lemma status_200_acknowledges_witness :
  every_interpreter (fun interp =>
    status (fst (webhook_handler alerts_db (answering 200) (py "alerts-1")
                   (py "text/plain") (py "disk full"))) = 200
    /\ exists topic_info formatted,
        TopicDatabase.get_topic alerts_db (py "alerts-1") = Some topic_info
        /\ snd (webhook_handler alerts_db (answering 200) (py "alerts-1")
                  (py "text/plain") (py "disk full"))
           = [GetTopic (py "alerts-1"); ReadBody;
              SendMessage (TopicDatabase.chat_id topic_info)
                (notification_text (py "alerts-1") formatted)]
        /\ answering 200 (TopicDatabase.chat_id topic_info)
             (notification_text (py "alerts-1") formatted) = Replied 200).
Proof.
  intros interp. split; [reflexivity |].
  apply (status_200_acknowledges alerts_db (answering 200) (py "alerts-1")
           (py "text/plain") (py "disk full")).
  reflexivity.
Defined.

Lemma json_non_object_is_500_witness :
  every_interpreter (fun interp =>
    json_loads (clean_raw_body (py "null")) = Loaded PNone
    /\ webhook_handler alerts_db (answering 200) (py "alerts-1")
         application_json (py "null")
       = (internal_server_error, alerts_trace)).
Proof.
  intros interp. split; [reflexivity |].
  apply (json_non_object_is_500 alerts_db (answering 200) (py "alerts-1")
           (py "null") alerts_row PNone); [reflexivity | reflexivity |].
  discriminate.
Defined.

Lemma json_object_without_message_is_sent_witness :
  every_interpreter (fun interp =>
    json_loads (clean_raw_body (js "{'a': 1}"))
    = Loaded (PDict [(py "a", PInt 1)])
    /\ read_message application_json (js "{'a': 1}")
       = Return (PStr (py "{'a': 1}"))
    /\ format_message (PStr (py "{'a': 1}")) = Return (py "{'a': 1}")).
Proof.
  intros interp. split; [reflexivity |].
  destruct (json_object_without_message_is_sent alerts_db (answering 200)
              (py "alerts-1") (js "{'a': 1}") alerts_row
              [(py "a", PInt 1)] eq_refl eq_refl eq_refl eq_refl)
    as (Hm & _ & _ & Hf).
  split; [exact Hm |].
  exact (Hf (py "a") (PInt 1) [] eq_refl eq_refl).
Defined.

Lemma plain_text_is_sent_verbatim_witness :
  every_interpreter (fun interp =>
    json_loads (py "disk full") = JSONDecodeError
    /\ snd (webhook_handler alerts_db (answering 200) (py "alerts-1")
              (py "text/plain") (py "disk full"))
       = alerts_sent (py "disk full")).
Proof.
  intros interp. split; [reflexivity |].
  apply (plain_text_is_sent_verbatim alerts_db (answering 200) (py "alerts-1")
           (py "text/plain") (py "disk full") alerts_row);
    try reflexivity; discriminate.
Defined.

Lemma valid_topic_name_characters_witness :
  every_unicode (fun unicode =>
    valid_topic_name (py "alerts-1") = true
    /\ py "alerts-1" <> []
    /\ forall c, In c (py "alerts-1") -> 0 <= c < 128 ->
       ascii_alnum c = true \/ c = 45 \/ c = 95).
Proof.
  intros unicode. split; [apply alerts_name_valid |].
  apply (valid_topic_name_characters (py "alerts-1")), alerts_name_valid.
Defined.

Lemma register_several_words_refused_witness :
  every_unicode (fun unicode =>
    (2 <= length [py "my"; py "topic"])%nat
    /\ register_command alerts_db 5 [py "my"; py "topic"] 7 7
       = (alerts_db, register_invalid)).
Proof.
  intros unicode. split; [simpl; lia |].
  apply (register_several_words_refused alerts_db 5 [py "my"; py "topic"] 7 7).
  simpl. lia.
Defined.

Lemma register_done_routes_to_chat_witness :
  every_interpreter (fun interp => every_unicode (fun unicode =>
    register_command TopicDatabase.init_database 0 [py "alerts-1"] 42 42
    = (alerts_db, register_done (join [32] [py "alerts-1"]))
    /\ TopicDatabase.get_topic alerts_db (join [32] [py "alerts-1"])
       = Some (TopicDatabase.mk_row (join [32] [py "alerts-1"]) 42 42 0))).
Proof.
  intros interp unicode. split; [apply register_alerts |].
  apply (register_done_routes_to_chat TopicDatabase.init_database alerts_db 0
           [py "alerts-1"] 42 42).
  apply register_alerts.
Defined.

Lemma register_never_redirects_witness :
  every_unicode (fun unicode =>
    TopicDatabase.get_topic alerts_db (py "alerts-1") = Some alerts_row
    /\ TopicDatabase.get_topic
         (fst (register_command alerts_db 5 [py "alerts-1"] 7 7))
         (py "alerts-1")
       = Some alerts_row).
Proof.
  intros unicode. split; [reflexivity |].
  apply (register_never_redirects alerts_db 5 [py "alerts-1"] 7 7).
  reflexivity.
Defined.

Lemma commands_keep_registry_well_formed_witness :
  every_unicode (fun unicode =>
    well_formed_registry TopicDatabase.init_database
    /\ well_formed_registry
         (fst (register_command TopicDatabase.init_database 0
                 [py "alerts-1"] 42 42))).
Proof.
  intros unicode.
  assert (Hwf : well_formed_registry TopicDatabase.init_database)
    by (split; constructor).
  split; [exact Hwf |].
  apply (commands_keep_registry_well_formed TopicDatabase.init_database 0
           [py "alerts-1"] 42 42 Hwf).
Defined.

Lemma unregister_only_own_witness :
  TopicDatabase.get_topic alerts_db (py "alerts-1") = Some alerts_row
  /\ TopicDatabase.get_topic
       (fst (unregister_command alerts_db [py "alerts-1"] 7)) (py "alerts-1")
     = Some alerts_row.
Proof.
  split; [reflexivity |].
  apply (proj1 (unregister_only_own alerts_db [py "alerts-1"] 7));
    [reflexivity | discriminate].
Defined.

Lemma unregister_done_then_404_witness :
  every_interpreter (fun interp =>
    TopicDatabase.primary_key alerts_db
    /\ snd (unregister_command alerts_db [py "alerts-1"] 42)
       = unregister_done (join [32] [py "alerts-1"])
    /\ webhook_handler (fst (unregister_command alerts_db [py "alerts-1"] 42))
         (answering 200) (join [32] [py "alerts-1"]) (py "text/plain")
         (py "disk full")
       = (mk_response 404 (py "Topic not found"),
          [GetTopic (join [32] [py "alerts-1"])])).
Proof.
  intros interp. split; [apply alerts_db_primary_key |].
  split; [reflexivity |].
  apply (unregister_done_then_404 alerts_db [py "alerts-1"] 42 (answering 200)
           (py "text/plain") (py "disk full") alerts_db_primary_key).
  reflexivity.
Defined.

Lemma list_topics_command_reply_witness :
  every_unicode (fun unicode => every_sqlite (fun sqlite =>
    list_topics_command alerts_db 7 = list_empty
    /\ In (topic_line alerts_row)
          (map topic_line (TopicDatabase.get_user_topics alerts_db 42)))).
Proof.
  intros unicode sqlite.
  destruct (list_topics_command_reply alerts_db 7) as (Hempty & _ & _).
  destruct (list_topics_command_reply alerts_db 42) as (_ & Hshown & _).
  split.
  - apply Hempty. intros topic [<- | []]. discriminate.
  - apply (Hshown alerts_row); [now left | reflexivity].
Defined.
